(** * Conversor: LAS <-> CSV well-log converter (src/app.py)

    A shallow embedding of the four functions of [app.py]
    ([get_depth_column], [plot_basic_logs], [las_to_csv], [csv_to_las]) and
    of the parts of pandas and lasio they call, followed by the properties
    of the specification.

    Conventions.
    - A Python [str] is a Rocq [string]; column names are read as ASCII
      text, [str.lower] acts on the letters A-Z only.
    - A pandas frame is its ordered list of named columns; the cells are of
      an arbitrary type [V], because the program only moves them around.
    - A Python function that may raise returns a [result]; a [try/except]
      that answers [None] is [catch]. *)

From Stdlib Require Import String Ascii List Bool Arith ZArith Lia Permutation.
Import ListNotations.

Local Open Scope string_scope.
Local Open Scope list_scope.

(* ------------------------------------------------------------------ *)
(** ** Python exceptions *)

Inductive exn : Type :=
| IndexError
| KeyError (key : string)
| ValueError (msg : string).

Inductive result (A : Type) : Type :=
| Ok (a : A)
| Raise (e : exn).

Arguments Ok {A} a.
Arguments Raise {A} e.

Definition bind {A B : Type} (r : result A) (k : A -> result B) : result B :=
  match r with
  | Ok a => k a
  | Raise e => Raise e
  end.

Notation "x <- r ;; k" := (bind r (fun x => k))
  (at level 61, r at next level, right associativity).

(** [try: ... except Exception: return None] *)
Definition catch {A : Type} (r : result A) : option A :=
  match r with
  | Ok a => Some a
  | Raise _ => None
  end.

(* ------------------------------------------------------------------ *)
(** ** Python strings *)

Module PyStr.

Definition is_upper (c : ascii) : bool :=
  ((65 <=? nat_of_ascii c) && (nat_of_ascii c <=? 90))%nat.

Definition lower_char (c : ascii) : ascii :=
  if is_upper c then ascii_of_nat (nat_of_ascii c + 32) else c.

(** [s.lower()] *)
Fixpoint lower (s : string) : string :=
  match s with
  | EmptyString => EmptyString
  | String c t => String (lower_char c) (lower t)
  end.




(** [s.startswith(p)] *)
Fixpoint startswith (p s : string) : bool :=
  match p, s with
  | EmptyString, _ => true
  | String _ _, EmptyString => false
  | String a p', String b s' => Ascii.eqb a b && startswith p' s'
  end.

(** [needle in hay] on two strings *)
Fixpoint contains (needle hay : string) : bool :=
  startswith needle hay ||
  match hay with
  | EmptyString => false
  | String _ t => contains needle t
  end.

(** [x in xs] on a list of strings *)
Definition mem (x : string) (xs : list string) : bool :=
  existsb (String.eqb x) xs.

(** What "[term] occurs in [name], ignoring case" means, independently of
    how the program tests it: some contiguous piece of [name] equals
    [term] up to the case of its letters. *)
Definition ci_substring (term name : string) : Prop :=
  exists pre mid post,
    name = (pre ++ mid ++ post)%string /\ lower mid = lower term.

End PyStr.

(* ------------------------------------------------------------------ *)
(** ** lasio header items

    The ~Well section of a LAS document is an ordered list of header
    items, found by mnemonic. *)

Inductive hvalue : Type :=
| HText (s : string)
| HFloat (literal : string)
| HDate (year month day : nat).

Record HeaderItem : Type := mkHeaderItem {
  h_mnemonic : string;
  h_unit : string;
  h_value : hvalue;
  h_descr : string
}.

(** The ~Well section of a new [lasio.LASFile()] (lasio's
    [defaults.get_default_items]): sixteen items, values empty but for
    the start, stop, step and null entries. *)
Definition default_well : list HeaderItem :=
  [ mkHeaderItem "STRT" "m" (HFloat "nan") "START DEPTH";
    mkHeaderItem "STOP" "m" (HFloat "nan") "STOP DEPTH";
    mkHeaderItem "STEP" "m" (HFloat "nan") "STEP";
    mkHeaderItem "NULL" "" (HFloat "-9999.25") "NULL VALUE";
    mkHeaderItem "COMP" "" (HText "") "COMPANY";
    mkHeaderItem "WELL" "" (HText "") "WELL";
    mkHeaderItem "FLD" "" (HText "") "FIELD";
    mkHeaderItem "LOC" "" (HText "") "LOCATION";
    mkHeaderItem "PROV" "" (HText "") "PROVINCE";
    mkHeaderItem "CNTY" "" (HText "") "COUNTY";
    mkHeaderItem "STAT" "" (HText "") "STATE";
    mkHeaderItem "CTRY" "" (HText "") "COUNTRY";
    mkHeaderItem "SRVC" "" (HText "") "SERVICE COMPANY";
    mkHeaderItem "DATE" "" (HText "") "DATE";
    mkHeaderItem "UWI" "" (HText "") "UNIQUE WELL ID";
    mkHeaderItem "API" "" (HText "") "API NUMBER" ].

Definition set_value (value : hvalue) (item : HeaderItem) : HeaderItem :=
  mkHeaderItem (h_mnemonic item) (h_unit item) value (h_descr item).

(** [section[key] = value] with a plain value (lasio's
    [SectionItems.set_item_value]): the value of the item called [key] is
    replaced; [KeyError] when the section has no such item. *)
Fixpoint set_item_value (items : list HeaderItem) (key : string)
    (value : hvalue) : result (list HeaderItem) :=
  match items with
  | [] => Raise (KeyError key)
  | item :: rest =>
    if String.eqb (h_mnemonic item) key
    then Ok (set_value value item :: rest)
    else rest' <- set_item_value rest key value ;; Ok (item :: rest')
  end.

(** [section.keys()] *)
Definition keys (items : list HeaderItem) : list string :=
  map h_mnemonic items.

(** [section[key].value] *)
Fixpoint value_of (items : list HeaderItem) (key : string) : option hvalue :=
  match items with
  | [] => None
  | item :: rest =>
    if String.eqb (h_mnemonic item) key then Some (h_value item)
    else value_of rest key
  end.

(** The caller's metadata: a Python [dict], in insertion order. *)
Definition well_dict : Type := list (string * hvalue).

(* ------------------------------------------------------------------ *)
(** ** The plotter's constants (app.py, lines 50 and 67) *)

Definition available_curves : list string :=
  ["GR"; "RHOB"; "NPHI"; "RT"; "DT"; "CALI"; "SP"].

Definition colors : list string :=
  ["#1f77b4"; "#ff7f0e"; "#2ca02c"; "#d62728"; "#9467bd"; "#8c564b";
   "#e377c2"].

(** [l.remove(x)] for an [x] that is in [l]: the first occurrence goes. *)
Fixpoint remove_first (x : string) (l : list string) : list string :=
  match l with
  | [] => []
  | y :: rest => if String.eqb y x then rest else y :: remove_first x rest
  end.

(** The resolver's vocabulary (app.py, line 14). *)
Definition depth_columns : list string :=
  ["DEPTH"; "MD"; "TVD"; "DEPT"; "PROFUNDIDADE"; "PROF"].

(** [any(depth_name.lower() in col.lower() for depth_name in depth_columns)] *)
Definition partial_test (col : string) : bool :=
  existsb (fun depth_name =>
             PyStr.contains (PyStr.lower depth_name) (PyStr.lower col))
          depth_columns.

(** The specification's reading of that test: the name contains some
    vocabulary term as a case-insensitive substring. *)
Definition partial_match (col : string) : Prop :=
  exists term, In term depth_columns /\ PyStr.ci_substring term col.

(* ------------------------------------------------------------------ *)
(** ** Frames, documents and the four functions *)

Section Program.

(** The type of a cell. *)
Variable V : Type.

(** A [pandas.DataFrame] with the default row index: its ordered named
    columns. *)
Definition DataFrame : Type := list (string * list V).

(** [df.columns] *)
Definition columns (df : DataFrame) : list string := map fst df.

(** [df[col]]: [KeyError] when there is no such column. This is
    pandas on frames with distinct column names, as [read_csv] and lasio
    make them; for a repeated name pandas answers a frame of all the
    columns of that name, which is not modelled. *)
Fixpoint getitem (df : DataFrame) (col : string) : result (list V) :=
  match df with
  | [] => Raise (KeyError col)
  | (c, vs) :: rest => if String.eqb c col then Ok vs else getitem rest col
  end.

(** *** [get_depth_column] (app.py, lines 9-27) *)

Definition get_depth_column (df : DataFrame) : result string :=
  (* for col in depth_columns: if col in df.columns: return col *)
  match find (fun col => PyStr.mem col (columns df)) depth_columns with
  | Some col => Ok col
  | None =>
    (* for col in df.columns: if any(...): return col *)
    match find partial_test (columns df) with
    | Some col => Ok col
    | None =>
      (* return df.columns[0] *)
      match columns df with
      | [] => Raise IndexError
      | c :: _ => Ok c
      end
    end
  end.

(** *** [plot_basic_logs] (app.py, lines 47-118)

    The figure keeps the traces and the parts of the layout that depend
    on the arguments or fix the depth axis; [st.warning] and [st.error]
    only display a text. *)

Record Scatter : Type := mkScatter {
  x : list V;
  y : list V;
  name : string;
  line_color : string
}.

Record Figure : Type := mkFigure {
  traces : list Scatter;
  height : nat;
  yaxis_autorange : string;
  yaxis_title : string
}.

(** Lines 50-57: the curves chosen for the plot. *)
Definition curves_to_plot (df : DataFrame) (depth_col : string)
    : list string :=
  match filter (fun curve => PyStr.mem curve (columns df)) available_curves with
  | [] =>
    if PyStr.mem depth_col (columns df)
    then remove_first depth_col (columns df)
    else columns df
  | chosen => chosen
  end.

(** The two selections as the specification words them: the vocabulary
    curves present in the frame, in vocabulary order, and all columns but
    the depth column. *)
Definition vocabulary_curves (df : DataFrame) : list string :=
  filter (fun curve => PyStr.mem curve (columns df)) available_curves.

Definition other_columns (df : DataFrame) (depth_col : string) : list string :=
  filter (fun c => negb (String.eqb c depth_col)) (columns df).

(** Lines 69-77: [for i, curve in enumerate(curves_to_plot)], from
    position [i] on. *)
Fixpoint add_traces (df : DataFrame) (depth_col : string) (i : nat)
    (curves : list string) : result (list Scatter) :=
  match curves with
  | [] => Ok []
  | curve :: rest =>
    xs <- getitem df curve ;;
    ys <- getitem df depth_col ;;
    more <- add_traces df depth_col (S i) rest ;;
    Ok (mkScatter xs ys curve (nth (i mod length colors) colors "") :: more)
  end.

Definition plot_basic_logs (df : DataFrame) (depth_col : string)
    : result (option Figure) :=
  match curves_to_plot df depth_col with
  | [] => Ok None
  | chosen =>
    trs <- add_traces df depth_col 0 chosen ;;
    Ok (Some (mkFigure trs 800 "reversed"
                       ("Profundidade (" ++ depth_col ++ ")")))
  end.

(** *** lasio documents *)

Record CurveItem : Type := mkCurveItem {
  mnemonic : string;
  unit : string;
  data : list V
}.

Record LASFile : Type := mkLASFile {
  well : list HeaderItem;
  curves : list CurveItem;
  index_unit : option string
}.

(** [lasio.LASFile()] *)
Definition LASFile_new : LASFile := mkLASFile default_well [] None.

(** [las.well[key] = value] *)
Definition well_setitem (las : LASFile) (key : string) (value : hvalue)
    : result LASFile :=
  items <- set_item_value (well las) key value ;;
  Ok (mkLASFile items (curves las) (index_unit las)).

(** [las.append_curve(mnemonic, data, unit=...)]; the library's default
    unit is the empty string. *)
Definition append_curve (las : LASFile) (mnemonic : string) (data : list V)
    (unit : string) : LASFile :=
  mkLASFile (well las) (curves las ++ [mkCurveItem mnemonic unit data])
            (index_unit las).

(** A frame whose row index carries values and, possibly, a name: what
    [las.df()] returns. *)
Record IndexedFrame : Type := mkIndexedFrame {
  index_name : option string;
  index_values : list V;
  body : DataFrame
}.

(** [las.df()]: one column per curve, named by its mnemonic, and the
    first curve made the row index, [set_index(curves[0].mnemonic)]: the
    index is called after that curve. On a document without curves
    stacking the data raises [ValueError]. *)
Definition las_df (las : LASFile) : result IndexedFrame :=
  match map (fun c => (mnemonic c, data c)) (curves las) with
  | [] => Raise (ValueError "need at least one array to concatenate")
  | (m, vs) :: rest => Ok (mkIndexedFrame (Some m) vs rest)
  end.

(** [df.reset_index()]: the index becomes the first column, under the
    index's name; a nameless index is called "index" (or "level_0" when
    "index" is taken). pandas refuses a name that is already a column. *)
Definition reset_index (f : IndexedFrame) : result DataFrame :=
  let label :=
    match index_name f with
    | Some n => n
    | None =>
      if PyStr.mem "index" (columns (body f)) then "level_0" else "index"
    end in
  if PyStr.mem label (columns (body f))
  then Raise (ValueError ("cannot insert " ++ label ++ ", already exists"))
  else Ok ((label, index_values f) :: body f).

(** [df.rename(columns={old: new})] *)
Definition rename (old new : string) (df : DataFrame) : DataFrame :=
  map (fun col => (if String.eqb (fst col) old then new else fst col, snd col))
      df.

(** *** The converters (app.py, lines 120-165)

    Reading a file is the libraries' work: [lasio_read] stands for
    decoding the upload and [lasio.read], [pd_read_csv] for
    [pandas.read_csv]; either may raise. *)

Variable File : Type.
Variable lasio_read : File -> result LASFile.
Variable pd_read_csv : File -> result DataFrame.

Definition las_to_csv (las_file : File) : option DataFrame :=
  catch (
    las <- lasio_read las_file ;;
    df <- las_df las ;;
    let depth_name :=
      match index_unit las with
      | None => "DEPTH"
      | Some u => if String.eqb u "" then "DEPTH" else u
      end in
    df <- reset_index df ;;
    Ok (rename "index" depth_name df)).

(** [for key, value in well_info.items(): las.well[key] = value] *)
Fixpoint write_well (las : LASFile) (items : well_dict) : result LASFile :=
  match items with
  | [] => Ok las
  | (key, value) :: rest =>
    las' <- well_setitem las key value ;;
    write_well las' rest
  end.

(** [for column in df.columns: if column != depth_col: ...] *)
Fixpoint append_others (df : DataFrame) (depth_col : string) (las : LASFile)
    (cols : list string) : result LASFile :=
  match cols with
  | [] => Ok las
  | column :: rest =>
    if String.eqb column depth_col
    then append_others df depth_col las rest
    else
      vs <- getitem df column ;;
      append_others df depth_col (append_curve las column vs "") rest
  end.

Definition csv_to_las (csv_file : File) (well_info : option well_dict)
    : option LASFile :=
  catch (
    df <- pd_read_csv csv_file ;;
    let las := LASFile_new in
    las <- match well_info with
           | Some ((_ :: _) as items) => write_well las items
           | _ => Ok las
           end ;;
    depth_col <- get_depth_column df ;;
    depth <- getitem df depth_col ;;
    let las := append_curve las depth_col depth "m" in
    append_others df depth_col las (columns df)).

(** The metadata the well section can take: every key names an item of a
    new document (the others raise [KeyError], see [set_item_value]). *)
Definition well_keys_known (well_info : option well_dict) : Prop :=
  match well_info with
  | None => True
  | Some items => forall key value, In (key, value) items -> In key (keys default_well)
  end.

(** What [csv_to_las] appends for a column other than the depth column:
    a curve of that name and those values, with the default unit. *)
Definition plain_curve (df : DataFrame) (column : string) (c : CurveItem)
    : Prop :=
  mnemonic c = column /\ unit c = "" /\ getitem df column = Ok (data c).

End Program.

Arguments columns {V} df.
Arguments getitem {V} df col.
Arguments get_depth_column {V} df.
Arguments curves_to_plot {V} df depth_col.
Arguments add_traces {V} df depth_col i curves.
Arguments vocabulary_curves {V} df.
Arguments other_columns {V} df depth_col.
Arguments height {V} f.
Arguments plot_basic_logs {V} df depth_col.
Arguments mkScatter {V} x y name line_color.
Arguments x {V} s.
Arguments y {V} s.
Arguments name {V} s.
Arguments line_color {V} s.
Arguments mkFigure {V} traces height yaxis_autorange yaxis_title.
Arguments traces {V} f.
Arguments yaxis_autorange {V} f.
Arguments yaxis_title {V} f.
Arguments mkCurveItem {V} mnemonic unit data.
Arguments mnemonic {V} c.
Arguments unit {V} c.
Arguments data {V} c.
Arguments mkLASFile {V} well curves index_unit.
Arguments well {V} l.
Arguments curves {V} l.
Arguments index_unit {V} l.
Arguments LASFile_new {V}.
Arguments append_curve {V} las mnemonic data unit.
Arguments las_df {V} las.
Arguments reset_index {V} f.
Arguments rename {V} old new df.
Arguments las_to_csv {V File} lasio_read las_file.
Arguments csv_to_las {V File} pd_read_csv csv_file well_info.
Arguments write_well {V} las items.
Arguments plain_curve {V} df column c.
Arguments mkIndexedFrame {V} index_name index_values body.
Arguments append_others {V} df depth_col las cols.

(* ------------------------------------------------------------------ *)
(** ** Sample data

    Small frames and documents with integer cells, on which the
    functions are run. *)

Definition frame_logs : DataFrame nat :=
  [("GR", [55; 60]); ("DEPTH", [100; 101]); ("RHOB", [2; 3])].

Definition frame_partial : DataFrame nat :=
  [("WELLNAME", [7; 7]); ("MD_depth_m", [100; 101]); ("PROF_2", [1; 2])].

Definition frame_plain : DataFrame nat :=
  [("FOO", [100; 101]); ("BAR", [1; 2])].

Definition frame_depth_only : DataFrame nat :=
  [("DEPTH", [100; 101])].

Definition frame_gr_first : DataFrame nat :=
  [("GR", [55; 60]); ("RT", [9; 8])].

(** The metadata of the specification's scenario. *)
Definition scenario_well_info : well_dict :=
  [("WELL", HText "W-1"); ("FLD", HText "North")].

(** A parsed LAS file: depth in metres under the mnemonic DEPT, and a
    gamma-ray curve. *)
Definition las_dept_gr : LASFile nat :=
  mkLASFile default_well
            [mkCurveItem "DEPT" "M" [100; 101];
             mkCurveItem "GR" "GAPI" [55; 60]]
            (Some "M").

(** An upload is a CSV text, given by the frame [pandas.read_csv] makes
    of it, or a LAS text, given by the document [lasio.read] makes of
    it. *)
Inductive upload : Type :=
| CsvText (df : DataFrame nat)
| LasText (las : LASFile nat).

Definition sample_read_csv (f : upload) : result (DataFrame nat) :=
  match f with
  | CsvText df => Ok df
  | LasText _ => Raise (ValueError "not a table")
  end.

Definition sample_lasio_read (f : upload) : result (LASFile nat) :=
  match f with
  | LasText las => Ok las
  | CsvText _ => Raise (KeyError "No ~ sections found")
  end.

(* ------------------------------------------------------------------ *)
(** ** The calls [main] makes (app.py, lines 249-283 and 302-312)

    [main] is the page: widgets, texts and downloads. Its two branches
    call the four functions as follows. The calls that display or
    serialise are not modelled: [st.dataframe], [df.to_csv], and
    [las.write] on line 316, which fills STRT, STOP and STEP of the
    document it is given before writing it. *)

Section Main.

Variables V File : Type.
Variable lasio_read : File -> result (LASFile V).
Variable pd_read_csv : File -> result (DataFrame V).

(** The branch 'LAS para CSV' for an uploaded file: [las_to_csv], and
    when it answers a frame, [get_depth_column] and [plot_basic_logs] on
    that frame. Neither of the two is inside a [try]. *)
Definition main_las_para_csv (las_file : File)
    : result (option (DataFrame V * string * option (Figure V))) :=
  match las_to_csv lasio_read las_file with
  | None => Ok None
  | Some df =>
    depth_col <- get_depth_column df ;;
    fig <- plot_basic_logs df depth_col ;;
    Ok (Some (df, depth_col, fig))
  end.

(** Lines 302-312 of the branch 'CSV para LAS': the dictionary is
    filled from the four inputs, in this order, and handed to
    [csv_to_las]; the value is the document [csv_to_las] returns to
    [main], before [las.write] touches it. *)
Definition main_well_info (poco campo companhia : string)
    (data : nat * nat * nat) : well_dict :=
  [("WELL", HText poco); ("FLD", HText campo); ("COMP", HText companhia);
   ("DATE", HDate (fst (fst data)) (snd (fst data)) (snd data))].

Definition main_call_csv_to_las (csv_file : File) (poco campo companhia : string)
    (data : nat * nat * nat) : option (LASFile V) :=
  csv_to_las pd_read_csv csv_file
             (Some (main_well_info poco campo companhia data)).

End Main.

Arguments main_las_para_csv {V File} lasio_read las_file.
Arguments main_call_csv_to_las {V File} pd_read_csv csv_file poco campo companhia data.

(** The name [las_to_csv] gives to a column called "index" (app.py,
    lines 129-131): the index unit, or "DEPTH" without one. *)
Definition depth_name_of (u : option string) : string :=
  match u with
  | None => "DEPTH"
  | Some u => if String.eqb u "" then "DEPTH" else u
  end.

(** A curve as the column [las.df()] makes of it. *)
Definition curve_column {V : Type} (c : CurveItem V) : string * list V :=
  (mnemonic c, data c).



(** More sample data. *)









Definition frame_priority : DataFrame nat :=
  [("depth_m", [1; 2]); ("TVD", [3; 4]); ("MD", [5; 6])].

Definition frame_logs_shuffled : DataFrame nat :=
  [("RHOB", [2; 3]); ("GR", [55; 60]); ("DEPTH", [100; 101])].

Definition frame_wide : DataFrame nat :=
  [("D", [0]); ("A1", [1]); ("A2", [2]); ("A3", [3]); ("A4", [4]);
   ("A5", [5]); ("A6", [6]); ("A7", [7]); ("A8", [8])].

Definition frame_none : DataFrame nat := [].

(** The figures the plotter draws for two of the sample frames. *)

Definition figure_logs : Figure nat :=
  mkFigure [mkScatter [55; 60] [100; 101] "GR" "#1f77b4";
            mkScatter [2; 3] [100; 101] "RHOB" "#ff7f0e"]
           800 "reversed" "Profundidade (DEPTH)".

Definition figure_wide : Figure nat :=
  mkFigure [mkScatter [1] [0] "A1" "#1f77b4";
            mkScatter [2] [0] "A2" "#ff7f0e";
            mkScatter [3] [0] "A3" "#2ca02c";
            mkScatter [4] [0] "A4" "#d62728";
            mkScatter [5] [0] "A5" "#9467bd";
            mkScatter [6] [0] "A6" "#8c564b";
            mkScatter [7] [0] "A7" "#e377c2";
            mkScatter [8] [0] "A8" "#1f77b4"]
           800 "reversed" "Profundidade (D)".

(** The table [las_to_csv] makes of [las_dept_gr]. *)
Definition frame_dept_gr : DataFrame nat :=
  [("DEPT", [100; 101]); ("GR", [55; 60])].

(* ------------------------------------------------------------------ *)
(** ** Facts about strings *)

Module PyStrFacts.
Import PyStr.

Lemma mem_In (x : string) (xs : list string) :
  mem x xs = true <-> In x xs.
Proof.
  unfold mem. rewrite existsb_exists. split.
  - intros [y [Hy He]]. apply String.eqb_eq in He. now subst.
  - intros H. exists x. split; [assumption | apply String.eqb_refl].
Qed.

Lemma mem_false (x : string) (xs : list string) :
  mem x xs = false <-> ~ In x xs.
Proof.
  rewrite <- mem_In. destruct (mem x xs); split; intros; congruence.
Qed.

Lemma lower_app (a b : string) :
  lower (a ++ b) = (lower a ++ lower b)%string.
Proof.
  induction a as [|c a IH]; simpl; [reflexivity | now rewrite IH].
Qed.

(** [lower] works letter by letter, so a cut of [lower s] is a cut of [s]. *)
Lemma lower_app_inv (s a b : string) :
  lower s = (a ++ b)%string ->
  exists s1 s2, s = (s1 ++ s2)%string /\ lower s1 = a /\ lower s2 = b.
Proof.
  revert s. induction a as [|c a IH]; intros s H.
  - exists EmptyString, s. simpl in *. auto.
  - destruct s as [|d s]; simpl in H; [discriminate|].
    injection H as Hc Hs.
    destruct (IH s Hs) as [s1 [s2 [E [H1 H2]]]].
    exists (String d s1), s2. simpl. subst. auto.
Qed.

Lemma startswith_spec (p s : string) :
  startswith p s = true <-> exists post, s = (p ++ post)%string.
Proof.
  revert s. induction p as [|a p IH]; intros s; simpl.
  - split; [intros _; now exists s | reflexivity].
  - destruct s as [|b s].
    + split; [discriminate | intros [post H]; discriminate].
    + rewrite andb_true_iff, Ascii.eqb_eq, IH. split.
      * intros [-> [post ->]]. now exists post.
      * intros [post H]. injection H as -> ->. split; [reflexivity | now exists post].
Qed.

Lemma contains_spec (needle hay : string) :
  contains needle hay = true <->
  exists pre post, hay = (pre ++ needle ++ post)%string.
Proof.
  induction hay as [|c hay IH].
  - simpl. rewrite orb_false_r, startswith_spec. split.
    + intros [post H]. now exists EmptyString, post.
    + intros [pre [post H]].
      destruct pre; simpl in H; [now exists post | discriminate].
  - cbn [contains]. rewrite orb_true_iff, startswith_spec, IH. split.
    + intros [[post H] | [pre [post H]]].
      * now exists EmptyString, post.
      * exists (String c pre), post. simpl. now rewrite H.
    + intros [pre [post H]]. destruct pre as [|d pre]; simpl in H.
      * left. now exists post.
      * right. injection H as _ H. now exists pre, post.
Qed.

(** The program's test [term.lower() in name.lower()] decides
    [ci_substring]. *)
Lemma contains_lower_ci (term name : string) :
  contains (lower term) (lower name) = true <-> ci_substring term name.
Proof.
  rewrite contains_spec. unfold ci_substring. split.
  - intros [pre [post H]].
    apply lower_app_inv in H. destruct H as [s1 [s2 [E [H1 H2]]]].
    apply lower_app_inv in H2. destruct H2 as [s3 [s4 [E' [H3 H4]]]].
    exists s1, s3, s4. subst. auto.
  - intros [pre [mid [post [E H]]]].
    exists (lower pre), (lower post).
    subst. now rewrite !lower_app, H.
Qed.

End PyStrFacts.

(* ------------------------------------------------------------------ *)
(** ** Facts about lists and frames *)

Lemma find_first {A : Type} (f : A -> bool) (pre : list A) (a : A)
    (post : list A) :
  f a = true -> (forall b, In b pre -> f b = false) ->
  find f (pre ++ a :: post) = Some a.
Proof.
  intros Ha. induction pre as [|b pre IH]; intros Hpre; simpl.
  - now rewrite Ha.
  - rewrite (Hpre b (or_introl eq_refl)). apply IH.
    intros c Hc. apply Hpre. now right.
Qed.

Lemma find_all_false {A : Type} (f : A -> bool) (l : list A) :
  (forall b, In b l -> f b = false) -> find f l = None.
Proof.
  induction l as [|b l IH]; intros H; simpl; [reflexivity|].
  rewrite (H b (or_introl eq_refl)). apply IH. intros c Hc. apply H. now right.
Qed.

Lemma partial_test_spec (col : string) :
  partial_test col = true <-> partial_match col.
Proof.
  unfold partial_test, partial_match. rewrite existsb_exists.
  split; intros [term [Hin H]]; exists term; split; try assumption;
    now apply PyStrFacts.contains_lower_ci.
Qed.

Lemma partial_test_false (col : string) :
  partial_test col = false <-> ~ partial_match col.
Proof.
  rewrite <- partial_test_spec. destruct (partial_test col); split; intros; congruence.
Qed.

Lemma remove_first_subset (d c : string) (l : list string) :
  In c (remove_first d l) -> In c l.
Proof.
  induction l as [|a l IH]; simpl; [tauto|].
  destruct (String.eqb a d); simpl; tauto.
Qed.

(** With distinct names, removing the first occurrence removes the name. *)
Lemma remove_first_filter (d : string) (l : list string) :
  NoDup l ->
  remove_first d l = filter (fun c => negb (String.eqb c d)) l.
Proof.
  induction 1 as [|a l Hnot Hnd IH]; simpl; [reflexivity|].
  destruct (String.eqb_spec a d) as [->|Hne]; simpl.
  - symmetry. clear IH Hnd. induction l as [|b l IHl]; simpl; [reflexivity|].
    destruct (String.eqb_spec b d) as [->|Hb]; simpl.
    + exfalso. apply Hnot. now left.
    + f_equal. apply IHl. intros Hin. apply Hnot. now right.
  - now rewrite IH.
Qed.

Lemma filter_absent (d : string) (l : list string) :
  ~ In d l -> filter (fun c => negb (String.eqb c d)) l = l.
Proof.
  induction l as [|a l IH]; simpl; intros H; [reflexivity|].
  destruct (String.eqb_spec a d) as [->|Hne]; simpl.
  - exfalso. apply H. now left.
  - f_equal. apply IH. tauto.
Qed.

Section FrameFacts.

Context {V : Type}.
Implicit Types (df : DataFrame V) (col depth_col : string).

Lemma getitem_In df col :
  In col (columns df) -> exists vs, getitem df col = Ok vs.
Proof.
  induction df as [|[c vs] df IH]; simpl; [tauto|].
  intros [->|H].
  - rewrite String.eqb_refl. now exists vs.
  - destruct (String.eqb c col); [now exists vs | now apply IH].
Qed.

Lemma getitem_Ok_In df col vs :
  getitem df col = Ok vs -> In (col, vs) df.
Proof.
  induction df as [|[c ws] df IH]; simpl; [discriminate|].
  destruct (String.eqb_spec c col) as [->|Hne].
  - intros [= ->]. now left.
  - intros H. right. now apply IH.
Qed.

Lemma getitem_NoDup df col vs :
  NoDup (columns df) -> In (col, vs) df -> getitem df col = Ok vs.
Proof.
  induction df as [|[c ws] df IH]; simpl; [tauto|].
  intros Hnd [[= -> ->]|Hin].
  - now rewrite String.eqb_refl.
  - inversion Hnd as [|? ? Hnot Hnd']; subst.
    destruct (String.eqb_spec c col) as [->|Hne].
    + exfalso. apply Hnot. change col with (fst (col, vs)). now apply in_map.
    + now apply IH.
Qed.

(** No exact vocabulary name among the columns: the first loop of the
    resolver finds nothing. *)
Lemma exact_loop_none df :
  (forall term, In term depth_columns -> ~ In term (columns df)) ->
  find (fun col => PyStr.mem col (columns df)) depth_columns = None.
Proof.
  intros H. apply find_all_false. intros term Hin.
  apply PyStrFacts.mem_false. now apply H.
Qed.

(** On a frame with a column the resolver returns one of the columns. *)
Lemma get_depth_column_In df :
  columns df <> [] ->
  exists col, get_depth_column df = Ok col /\ In col (columns df).
Proof.
  intros Hne. unfold get_depth_column.
  destruct (find (fun col => PyStr.mem col (columns df)) depth_columns)
    as [col|] eqn:Hexact.
  - apply find_some in Hexact. destruct Hexact as [_ Hmem].
    apply PyStrFacts.mem_In in Hmem. now exists col.
  - destruct (find partial_test (columns df)) as [col|] eqn:Hpart.
    + apply find_some in Hpart. destruct Hpart as [Hin _]. now exists col.
    + destruct (columns df) as [|c cs]; [contradiction|].
      exists c. split; [reflexivity | now left].
Qed.

Lemma curves_to_plot_columns df depth_col c :
  In c (curves_to_plot df depth_col) -> In c (columns df).
Proof.
  unfold curves_to_plot.
  destruct (filter _ available_curves) as [|a l] eqn:E.
  - destruct (PyStr.mem depth_col (columns df)); [apply remove_first_subset | tauto].
  - rewrite <- E. intros H. apply filter_In in H.
    now apply PyStrFacts.mem_In.
Qed.

(** The loop over the chosen curves, once the depth column exists: one
    trace per curve, in order, the colour taken at the trace's position. *)
Lemma add_traces_ok df depth_col ys (chosen : list string) :
  getitem df depth_col = Ok ys ->
  (forall c, In c chosen -> In c (columns df)) ->
  forall i, exists trs,
    add_traces df depth_col i chosen = Ok trs /\
    map name trs = chosen /\
    forall k t, nth_error trs k = Some t ->
      line_color t = nth ((i + k) mod length colors) colors "" /\
      y t = ys /\ getitem df (name t) = Ok (x t).
Proof.
  intros Hy. induction chosen as [|c chosen IH]; intros Hin i.
  - exists []. repeat split; try reflexivity.
    all: destruct k; discriminate.
  - destruct (getitem_In df c (Hin c (or_introl eq_refl))) as [xs Hx].
    destruct (IH (fun c' H => Hin c' (or_intror H)) (S i)) as [trs [Htr [Hn Hk]]].
    exists (mkScatter xs ys c (nth (i mod length colors) colors "") :: trs).
    split; [|split].
    + cbn [add_traces]. rewrite Hx. cbn [bind]. rewrite Hy. cbn [bind].
      rewrite Htr. reflexivity.
    + simpl. now rewrite Hn.
    + intros [|k] t Ht.
      * injection Ht as <-. cbn [line_color y x name].
        rewrite Nat.add_0_r. auto.
      * cbn [nth_error] in Ht. destruct (Hk k t Ht) as [Hc Hrest].
        split; [|exact Hrest]. rewrite Hc. f_equal. f_equal. lia.
Qed.

End FrameFacts.

(* ------------------------------------------------------------------ *)
(** ** The depth-column resolver *)

Section Resolver.

Context {V : Type}.
Implicit Types (df : DataFrame V).

(** C5. A frame that has a column called exactly "DEPTH", at any
    position, resolves to "DEPTH". *)
Theorem get_depth_column_exact_DEPTH df :
  In "DEPTH" (columns df) -> get_depth_column df = Ok "DEPTH".
Proof.
  intros H. unfold get_depth_column. cbn [depth_columns find].
  apply PyStrFacts.mem_In in H. now rewrite H.
Qed.

(** C6. When no column bears a vocabulary name, the resolver answers the
    first column, in the frame's order, whose name contains a vocabulary
    term as a case-insensitive substring; when no column does, it
    answers the frame's first column. *)
Theorem get_depth_column_partial_then_first df :
  (forall term, In term depth_columns -> ~ In term (columns df)) ->
  (forall pre col post,
      columns df = pre ++ col :: post ->
      partial_match col ->
      (forall c, In c pre -> ~ partial_match c) ->
      get_depth_column df = Ok col)
  /\
  (forall first rest,
      columns df = first :: rest ->
      (forall c, In c (columns df) -> ~ partial_match c) ->
      get_depth_column df = Ok first).
Proof.
  intros Hno. unfold get_depth_column.
  rewrite (exact_loop_none df Hno). split.
  - intros pre col post E Hcol Hpre. rewrite E.
    rewrite find_first; [reflexivity | now apply partial_test_spec |].
    intros c Hc. now apply partial_test_false, Hpre.
  - intros first rest E Hnone.
    rewrite find_all_false.
    + now rewrite E.
    + intros c Hc. now apply partial_test_false, Hnone.
Qed.

(** C7. On a frame with a column the resolver returns, and what it
    returns is the name of one of the frame's columns; on a frame
    without columns [df.columns[0]] raises [IndexError], which the
    resolver does not catch. *)
Theorem get_depth_column_total df :
  match columns df with
  | [] => get_depth_column df = Raise IndexError
  | _ :: _ =>
    exists col, get_depth_column df = Ok col /\ In col (columns df)
  end.
Proof.
  destruct (columns df) as [|c cs] eqn:E.
  - unfold get_depth_column. rewrite E. reflexivity.
  - rewrite <- E. apply get_depth_column_In. rewrite E. discriminate.
Qed.

End Resolver.

(* ------------------------------------------------------------------ *)
(** ** The curve plotter *)

Section Plotter.

Context {V : Type}.
Implicit Types (df : DataFrame V) (depth_col : string).

Lemma curves_to_plot_spec df depth_col :
  NoDup (columns df) ->
  curves_to_plot df depth_col =
  match vocabulary_curves df with
  | [] => other_columns df depth_col
  | chosen => chosen
  end.
Proof.
  intros Hnd. unfold curves_to_plot, vocabulary_curves, other_columns.
  destruct (filter _ available_curves); [|reflexivity].
  destruct (PyStr.mem depth_col (columns df)) eqn:E.
  - now apply remove_first_filter.
  - symmetry. apply filter_absent. now apply PyStrFacts.mem_false.
Qed.

Lemma plot_unfold df depth_col :
  plot_basic_logs df depth_col =
  match curves_to_plot df depth_col with
  | [] => Ok None
  | _ :: _ =>
    trs <- add_traces df depth_col 0 (curves_to_plot df depth_col) ;;
    Ok (Some (mkFigure trs 800 "reversed"
                       ("Profundidade (" ++ depth_col ++ ")")))
  end.
Proof.
  unfold plot_basic_logs. now destruct (curves_to_plot df depth_col).
Qed.

Lemma plot_some df depth_col trs :
  curves_to_plot df depth_col <> [] ->
  add_traces df depth_col 0 (curves_to_plot df depth_col) = Ok trs ->
  plot_basic_logs df depth_col =
  Ok (Some (mkFigure trs 800 "reversed"
                     ("Profundidade (" ++ depth_col ++ ")"))).
Proof.
  intros Hne Htr. rewrite plot_unfold, Htr. revert Hne.
  destruct (curves_to_plot df depth_col); [intros H; now elim H | reflexivity].
Qed.

Lemma plot_none_iff df depth_col :
  plot_basic_logs df depth_col = Ok None <-> curves_to_plot df depth_col = [].
Proof.
  unfold plot_basic_logs.
  destruct (curves_to_plot df depth_col) as [|c l]; [tauto|].
  split; [|discriminate].
  destruct (add_traces df depth_col 0 (c :: l)); cbn [bind]; discriminate.
Qed.

(** C8. The plotter chooses the vocabulary curves present in the frame;
    when there is none, all columns except the depth column; and when
    that leaves nothing, as for a frame made of its depth column alone,
    it returns [None] instead of a figure. *)
Theorem plot_basic_logs_selection df depth_col :
  NoDup (columns df) ->
  curves_to_plot df depth_col =
    match vocabulary_curves df with
    | [] => other_columns df depth_col
    | chosen => chosen
    end
  /\ (plot_basic_logs df depth_col = Ok None <->
      vocabulary_curves df = [] /\ other_columns df depth_col = [])
  /\ (columns df = [depth_col] -> ~ In depth_col available_curves ->
      plot_basic_logs df depth_col = Ok None).
Proof.
  intros Hnd. pose proof (curves_to_plot_spec df depth_col Hnd) as Hsel.
  split; [exact Hsel|]. split.
  - rewrite plot_none_iff, Hsel.
    destruct (vocabulary_curves df) as [|c l]; split.
    + auto.
    + tauto.
    + discriminate.
    + intros [H _]. discriminate.
  - intros Hcols Hnot. apply plot_none_iff. rewrite Hsel.
    assert (Hv : vocabulary_curves df = []).
    { unfold vocabulary_curves. rewrite Hcols.
      destruct (filter _ available_curves) as [|c l] eqn:E; [reflexivity|].
      assert (Hc : In c (c :: l)) by now left.
      rewrite <- E in Hc. apply filter_In in Hc. destruct Hc as [Hav Hm].
      apply PyStrFacts.mem_In in Hm. destruct Hm as [<-|[]]. contradiction. }
    rewrite Hv. unfold other_columns. rewrite Hcols. simpl.
    now rewrite String.eqb_refl.
Qed.

Lemma vocabulary_short df : length (vocabulary_curves df) <= length colors.
Proof.
  unfold vocabulary_curves.
  etransitivity; [apply filter_length_le | apply Nat.le_refl].
Qed.

(** C9. When the frame has vocabulary curves and the depth column, the
    plotter returns a figure whose traces are those curves in vocabulary
    order, the trace at position [i] drawn in colour [i mod 7] of the
    palette; and any figure it returns for the same arguments has the
    same trace names and colours. *)
Theorem plot_basic_logs_vocabulary_order df depth_col :
  vocabulary_curves df <> [] ->
  In depth_col (columns df) ->
  exists fig,
    plot_basic_logs df depth_col = Ok (Some fig) /\
    map name (traces fig) = vocabulary_curves df /\
    (forall i t, nth_error (traces fig) i = Some t ->
       nth_error colors (i mod length colors) = Some (line_color t)) /\
    (forall fig', plot_basic_logs df depth_col = Ok (Some fig') ->
       map name (traces fig') = map name (traces fig) /\
       map line_color (traces fig') = map line_color (traces fig)).
Proof.
  intros Hv Hd.
  destruct (getitem_In df depth_col Hd) as [ys Hy].
  assert (Hsel : curves_to_plot df depth_col = vocabulary_curves df).
  { unfold curves_to_plot, vocabulary_curves in *.
    destruct (filter _ available_curves); [contradiction | reflexivity]. }
  destruct (add_traces_ok df depth_col ys (curves_to_plot df depth_col) Hy
              (curves_to_plot_columns df depth_col) 0) as [trs [Htr [Hn Hk]]].
  exists (mkFigure trs 800 "reversed" ("Profundidade (" ++ depth_col ++ ")")).
  assert (Hplot : plot_basic_logs df depth_col =
                  Ok (Some (mkFigure trs 800 "reversed"
                                     ("Profundidade (" ++ depth_col ++ ")")))).
  { apply plot_some; [|exact Htr]. rewrite Hsel. exact Hv. }
  split; [exact Hplot|]. cbn [traces]. split; [now rewrite Hn|]. split.
  - intros i t Ht. destruct (Hk i t Ht) as [Hc _]. rewrite Hc. cbn [Nat.add].
    apply nth_error_nth'. apply Nat.mod_upper_bound. discriminate.
  - intros fig' H'. rewrite Hplot in H'. injection H' as <-. auto.
Qed.

(** C10. A depth column that is itself a vocabulary curve is not left
    out on the vocabulary path: the figure has a trace of the depth
    column against itself. The depth column is left out only on the
    fallback path, taken when the frame has no vocabulary curve. *)
Theorem plot_basic_logs_depth_trace df depth_col :
  NoDup (columns df) ->
  In depth_col (columns df) ->
  (In depth_col available_curves ->
   exists fig t ys,
     plot_basic_logs df depth_col = Ok (Some fig) /\
     getitem df depth_col = Ok ys /\
     In t (traces fig) /\ name t = depth_col /\ x t = ys /\ y t = ys)
  /\
  (vocabulary_curves df = [] ->
   forall fig, plot_basic_logs df depth_col = Ok (Some fig) ->
     ~ In depth_col (map name (traces fig))).
Proof.
  intros Hnd Hd. destruct (getitem_In df depth_col Hd) as [ys Hy].
  destruct (add_traces_ok df depth_col ys (curves_to_plot df depth_col) Hy
              (curves_to_plot_columns df depth_col) 0) as [trs [Htr [Hn Hk]]].
  split.
  - intros Hav.
    assert (Hin : In depth_col (vocabulary_curves df)).
    { apply filter_In. split; [exact Hav | now apply PyStrFacts.mem_In]. }
    assert (Hsel : curves_to_plot df depth_col = vocabulary_curves df).
    { rewrite (curves_to_plot_spec df depth_col Hnd).
      destruct (vocabulary_curves df); [destruct Hin | reflexivity]. }
    rewrite <- Hsel, <- Hn in Hin.
    apply in_map_iff in Hin. destruct Hin as [t [Hname Ht]].
    destruct (In_nth_error _ _ Ht) as [k Hkth].
    destruct (Hk k t Hkth) as [_ [Hyt Hxt]].
    exists (mkFigure trs 800 "reversed" ("Profundidade (" ++ depth_col ++ ")")),
           t, ys.
    repeat split; try assumption.
    + apply plot_some; [|exact Htr]. rewrite <- Hn.
      destruct trs; [destruct Ht | discriminate].
    + rewrite Hname, Hy in Hxt. now injection Hxt.
  - intros Hv fig Hfig.
    assert (Hne : curves_to_plot df depth_col <> []).
    { intros E. apply plot_none_iff in E. congruence. }
    rewrite (plot_some df depth_col trs Hne Htr) in Hfig.
    injection Hfig as <-. cbn [traces]. rewrite Hn.
    rewrite (curves_to_plot_spec df depth_col Hnd), Hv.
    unfold other_columns. intros Hin.
    apply filter_In in Hin. destruct Hin as [_ Hneq].
    now rewrite String.eqb_refl in Hneq.
Qed.

End Plotter.

(* ------------------------------------------------------------------ *)
(** ** The converters *)

Lemma set_item_value_keys (items : list HeaderItem) (key : string)
    (value : hvalue) :
  In key (keys items) ->
  exists items', set_item_value items key value = Ok items' /\
                 keys items' = keys items.
Proof.
  induction items as [|item items IH]; simpl; [tauto|].
  intros H. destruct (String.eqb_spec (h_mnemonic item) key) as [E|Hne].
  - eexists. split; [reflexivity|]. reflexivity.
  - destruct H as [H|H]; [contradiction|].
    destruct (IH H) as [items' [-> Hk]]. cbn [bind].
    eexists. split; [reflexivity|]. simpl. now rewrite Hk.
Qed.

Section Converters.

Context {V File : Type}.
Variable pd_read_csv : File -> result (DataFrame V).
Implicit Types (df : DataFrame V) (las : LASFile V) (depth_col : string).

Lemma write_well_ok las (items : well_dict) :
  (forall key value, In (key, value) items -> In key (keys (well las))) ->
  exists las', write_well las items = Ok las' /\
               keys (well las') = keys (well las) /\
               curves las' = curves las /\
               index_unit las' = index_unit las.
Proof.
  revert las. induction items as [|[key value] items IH]; intros las H.
  - exists las. auto.
  - destruct (set_item_value_keys (well las) key value
                (H key value (or_introl eq_refl))) as [items' [Hs Hk]].
    cbn [write_well]. unfold well_setitem. rewrite Hs. cbn [bind].
    destruct (IH (mkLASFile items' (curves las) (index_unit las)))
      as [las' [Hw [Hk' [Hc Hu]]]].
    + cbn [well]. rewrite Hk. intros k v Hin. apply (H k v). now right.
    + exists las'. cbn [well curves index_unit] in *.
      repeat split; try assumption. now rewrite Hk', Hk.
Qed.

(** The second loop of [csv_to_las]: one plain curve per column that is
    not the depth column, in the frame's order, appended after the
    curves already there; nothing else changes. *)
Lemma append_others_ok df depth_col (cols : list string) :
  (forall c, In c cols -> In c (columns df)) ->
  forall las, exists added,
    append_others df depth_col las cols =
      Ok (mkLASFile (well las) (curves las ++ added) (index_unit las)) /\
    Forall2 (plain_curve df)
            (filter (fun c => negb (String.eqb c depth_col)) cols) added.
Proof.
  induction cols as [|c cols IH]; intros Hin las.
  - exists []. rewrite app_nil_r. destruct las. split; [reflexivity | constructor].
  - cbn [append_others filter].
    destruct (String.eqb c depth_col) eqn:E; cbn [negb].
    + apply IH. intros c' H. apply Hin. now right.
    + destruct (getitem_In df c (Hin c (or_introl eq_refl))) as [vs Hvs].
      rewrite Hvs. cbn [bind].
      destruct (IH (fun c' H => Hin c' (or_intror H))
                   (append_curve las c vs "")) as [added [Ha Hf]].
      exists (mkCurveItem c "" vs :: added). split.
      * rewrite Ha. unfold append_curve. cbn [well curves index_unit].
        now rewrite <- app_assoc.
      * constructor; [|exact Hf]. unfold plain_curve. auto.
Qed.

(** What [csv_to_las] returns on a frame with a column and metadata the
    well section can take. *)
Lemma csv_to_las_ok (csv_file : File) (well_info : option well_dict) df :
  pd_read_csv csv_file = Ok df ->
  columns df <> [] ->
  well_keys_known well_info ->
  exists depth_col depth las rest,
    get_depth_column df = Ok depth_col /\
    getitem df depth_col = Ok depth /\
    csv_to_las pd_read_csv csv_file well_info = Some las /\
    match well_info with
    | Some ((_ :: _) as items) => write_well (@LASFile_new V) items
    | _ => Ok LASFile_new
    end = Ok (mkLASFile (well las) [] None) /\
    keys (well las) = keys default_well /\
    curves las = mkCurveItem depth_col "m" depth :: rest /\
    Forall2 (plain_curve df) (other_columns df depth_col) rest.
Proof.
  intros Hread Hne Hkeys.
  destruct (get_depth_column_In df Hne) as [depth_col [Hd Hin]].
  destruct (getitem_In df depth_col Hin) as [depth Hdepth].
  assert (Hw : exists las0,
             match well_info with
             | Some ((_ :: _) as items) => write_well LASFile_new items
             | _ => Ok LASFile_new
             end = Ok las0 /\
             keys (well las0) = keys default_well /\
             curves las0 = [] /\ index_unit las0 = None).
  { destruct well_info as [[|kv items]|].
    - exists LASFile_new. repeat split; reflexivity.
    - destruct (write_well_ok (@LASFile_new V) (kv :: items) Hkeys)
        as [las0 [H1 [H2 [H3 H4]]]].
      exists las0. repeat split; assumption.
    - exists LASFile_new. repeat split; reflexivity. }
  destruct Hw as [las0 [Hw [Hk [Hc Hu]]]].
  destruct (append_others_ok df depth_col (columns df) (fun c H => H)
              (append_curve las0 depth_col depth "m")) as [added [Ha Hf]].
  exists depth_col, depth,
    (mkLASFile (well las0) (mkCurveItem depth_col "m" depth :: added) None),
    added.
  repeat split; try assumption.
  - unfold csv_to_las. rewrite Hread. cbn [bind]. rewrite Hw. cbn [bind].
    rewrite Hd. cbn [bind]. rewrite Hdepth. cbn [bind]. rewrite Ha.
    unfold append_curve. cbn [well curves index_unit catch].
    now rewrite Hc, Hu.
  - rewrite Hw. cbn [well]. destruct las0. cbn in Hc, Hu. now subst.
Qed.

End Converters.

Lemma value_of_set_same (items items' : list HeaderItem) (key : string)
    (value : hvalue) :
  set_item_value items key value = Ok items' ->
  value_of items' key = Some value.
Proof.
  revert items'. induction items as [|item items IH]; intros items'; simpl;
    [discriminate|].
  destruct (String.eqb (h_mnemonic item) key) eqn:E.
  - intros [= <-]. simpl. now rewrite E.
  - destruct (set_item_value items key value) as [rest|]; cbn [bind];
      [|discriminate].
    intros [= <-]. simpl. rewrite E. now apply IH.
Qed.

Lemma value_of_set_other (items items' : list HeaderItem) (key k : string)
    (value : hvalue) :
  set_item_value items key value = Ok items' ->
  k <> key ->
  value_of items' k = value_of items k.
Proof.
  intros H Hne. revert items' H.
  induction items as [|item items IH]; intros items'; simpl; [discriminate|].
  destruct (String.eqb_spec (h_mnemonic item) key) as [E|E].
  - intros [= <-]. simpl.
    destruct (String.eqb_spec (h_mnemonic item) k); [congruence | reflexivity].
  - destruct (set_item_value items key value) as [rest|]; cbn [bind];
      [|discriminate].
    intros [= <-]. simpl. now rewrite (IH rest eq_refl).
Qed.

Lemma rename_absent {V : Type} (old new : string) (df : DataFrame V) :
  ~ In old (columns df) -> rename old new df = df.
Proof.
  induction df as [|[c vs] df IH]; simpl; intros H; [reflexivity|].
  destruct (String.eqb_spec c old) as [->|Hne]; [exfalso; auto|].
  f_equal. apply IH. tauto.
Qed.

Lemma depth_first_permutation (d : string) (l : list string) :
  NoDup l -> In d l ->
  Permutation (d :: filter (fun c => negb (String.eqb c d)) l) l.
Proof.
  induction 1 as [|a l Hnot Hnd IH]; intros Hin; [destruct Hin|].
  simpl. destruct (String.eqb_spec a d) as [->|Hne]; simpl.
  - now rewrite filter_absent.
  - destruct Hin as [E|Hin]; [contradiction|].
    etransitivity; [apply perm_swap|]. constructor. now apply IH.
Qed.

Lemma plain_curves_mnemonics {V : Type} (df : DataFrame V)
    (cols : list string) (cs : list (CurveItem V)) :
  Forall2 (plain_curve df) cols cs -> map mnemonic cs = cols.
Proof.
  induction 1 as [|col c cols cs [Hm _] _ IH]; simpl; [reflexivity|].
  now rewrite Hm, IH.
Qed.

(** Reading the plain curves back as columns: each column of the frame
    they were made from is found again, its values through [q]. *)
Lemma plain_curves_getitem {V : Type} (q : V -> V) (df : DataFrame V)
    (cols : list string) (cs : list (CurveItem V)) (col : string)
    (vs : list V) :
  Forall2 (plain_curve df) cols cs ->
  In col cols ->
  getitem df col = Ok vs ->
  getitem (map (fun c => (mnemonic c, map q (data c))) cs) col
  = Ok (map q vs).
Proof.
  intros Hf Hin Hget.
  induction Hf as [|col' c cols cs [Hm [_ Hd]] _ IH]; [destruct Hin|].
  simpl. rewrite Hm. destruct (String.eqb_spec col' col) as [->|Hne].
  - rewrite Hget in Hd. now injection Hd as ->.
  - destruct Hin as [E|Hin]; [contradiction | now apply IH].
Qed.

Section TableToLas.

Context {V File : Type}.
Variable pd_read_csv : File -> result (DataFrame V).
Implicit Types (df : DataFrame V) (las : LASFile V) (depth_col : string).

(** C3. Whatever the frame, [csv_to_las] puts the resolved depth column
    first in the document, as the index curve, with unit "m"; every
    other column follows as a curve with the default (empty) unit. *)
Theorem csv_to_las_curves (csv_file : File) (well_info : option well_dict) df :
  pd_read_csv csv_file = Ok df ->
  columns df <> [] ->
  well_keys_known well_info ->
  exists depth_col depth las rest,
    get_depth_column df = Ok depth_col /\
    getitem df depth_col = Ok depth /\
    csv_to_las pd_read_csv csv_file well_info = Some las /\
    curves las = mkCurveItem depth_col "m" depth :: rest /\
    Forall2 (plain_curve df) (other_columns df depth_col) rest.
Proof.
  intros Hread Hne Hkeys.
  destruct (csv_to_las_ok pd_read_csv csv_file well_info df Hread Hne Hkeys)
    as [depth_col [depth [las [rest [H1 [H2 [H3 [_ [_ [H4 H5]]]]]]]]]].
  now exists depth_col, depth, las, rest.
Qed.

(** C4, amended. With the metadata WELL = "W-1", FLD = "North" the
    well block of the document holds "W-1" at WELL and "North" at FLD;
    [csv_to_las] writes nothing else, so every other item of the block,
    COMP and DATE among them, is the item a new document starts with. *)
Theorem csv_to_las_well_block (csv_file : File) df :
  pd_read_csv csv_file = Ok df ->
  columns df <> [] ->
  exists las,
    csv_to_las pd_read_csv csv_file (Some scenario_well_info) = Some las /\
    keys (well las) = keys default_well /\
    value_of (well las) "WELL" = Some (HText "W-1") /\
    value_of (well las) "FLD" = Some (HText "North") /\
    (forall key, key <> "WELL" -> key <> "FLD" ->
       value_of (well las) key = value_of default_well key).
Proof.
  intros Hread Hne.
  assert (Hkeys : well_keys_known (Some scenario_well_info)).
  { intros key value [[= <- <-]|[[= <- <-]|[]]]; simpl; tauto. }
  destruct (csv_to_las_ok pd_read_csv csv_file _ df Hread Hne Hkeys)
    as [depth_col [depth [las [rest [_ [_ [H3 [Hw [Hk _]]]]]]]]].
  exists las. split; [exact H3|]. split; [exact Hk|].
  cbn [scenario_well_info write_well] in Hw. unfold well_setitem in Hw.
  destruct (set_item_value (well (@LASFile_new V)) "WELL" (HText "W-1"))
    as [items1|] eqn:E1; cbn [bind well curves index_unit] in Hw;
    [|discriminate].
  destruct (set_item_value items1 "FLD" (HText "North"))
    as [items2|] eqn:E2; cbn [bind well curves index_unit] in Hw;
    [|discriminate].
  injection Hw as <-. cbn [LASFile_new well] in E1.
  split; [|split].
  - rewrite (value_of_set_other _ _ _ "WELL" _ E2) by discriminate.
    exact (value_of_set_same _ _ _ _ E1).
  - exact (value_of_set_same _ _ _ _ E2).
  - intros key H1 H2.
    rewrite (value_of_set_other _ _ _ key _ E2) by assumption.
    exact (value_of_set_other _ _ _ key _ E1 H1).
Qed.

End TableToLas.

Section RoundTrip.

Context {V File : Type}.
Variable lasio_read : File -> result (LASFile V).
Variable pd_read_csv : File -> result (DataFrame V).
Implicit Types (df : DataFrame V) (las : LASFile V) (depth_col : string).

(** What [las_to_csv] makes of a document with at least one curve: the
    index column comes first and is called after the first curve, unless
    that curve is itself called "index". *)
Lemma las_to_csv_index_column (las_file : File) las (c : CurveItem V)
    (rest : list (CurveItem V)) :
  lasio_read las_file = Ok las ->
  curves las = c :: rest ->
  ~ In (mnemonic c) (map mnemonic rest) ->
  mnemonic c <> "index" ->
  exists back,
    las_to_csv lasio_read las_file = Some back /\
    hd_error back = Some (mnemonic c, data c).
Proof.
  intros Hread Hc Hnot Hne. unfold las_to_csv. rewrite Hread. cbn [bind].
  unfold las_df, reset_index. rewrite Hc.
  cbn [map bind index_name body index_values].
  assert (Hm : PyStr.mem (mnemonic c)
                 (columns (map (fun c0 => (mnemonic c0, data c0)) rest)) = false).
  { apply PyStrFacts.mem_false. unfold columns. rewrite map_map. exact Hnot. }
  rewrite Hm. cbn [bind catch rename map fst snd].
  apply String.eqb_neq in Hne. rewrite Hne. eexists. split; reflexivity.
Qed.

End RoundTrip.

(* ------------------------------------------------------------------ *)
(** ** The functions on the sample data *)

Example resolver_exact : get_depth_column frame_logs = Ok "DEPTH".
Proof. reflexivity. Qed.

Example resolver_partial : get_depth_column frame_partial = Ok "MD_depth_m".
Proof. reflexivity. Qed.

Example resolver_first : get_depth_column frame_plain = Ok "FOO".
Proof. reflexivity. Qed.

Example resolver_empty : get_depth_column (@nil (string * list nat)) = Raise IndexError.
Proof. reflexivity. Qed.

Example plot_fallback_names :
  match plot_basic_logs frame_plain "FOO" with
  | Ok (Some fig) => map name (traces fig) = ["BAR"]
  | _ => False
  end.
Proof. reflexivity. Qed.

Example plot_missing_depth :
  plot_basic_logs frame_logs "MD" = Raise (KeyError "MD").
Proof. reflexivity. Qed.

(** With a nameless index, [reset_index] followed by the renaming of
    "index" does call the index column [new]. *)
Lemma reset_rename_nameless {V : Type} (new : string) (vs : list V)
    (cols : DataFrame V) :
  ~ In "index" (columns cols) ->
  bind (reset_index (mkIndexedFrame None vs cols))
       (fun df => Ok (rename "index" new df))
  = Ok ((new, vs) :: cols).
Proof.
  intros H. unfold reset_index. cbn [index_name body index_values].
  apply PyStrFacts.mem_false in H. rewrite H, H. cbn [bind rename map fst snd].
  rewrite String.eqb_refl. do 2 f_equal.
  apply rename_absent. now apply PyStrFacts.mem_false.
Qed.

(** C2. On a LAS file whose index curve is DEPT, in metres, and whose
    index unit is "M", [las_to_csv] returns the depth as a column, but
    the column is called DEPT, after the curve, not M: the frame of
    [las.df()] has a named index, so no column is called "index" and the
    renaming changes nothing. *)
Theorem las_to_csv_depth_column_named_after_curve :
  index_unit las_dept_gr = Some "M" /\
  las_to_csv sample_lasio_read (LasText las_dept_gr)
  = Some [("DEPT", [100; 101]); ("GR", [55; 60])].
Proof. split; reflexivity. Qed.

(** C4 as stated fails: with the scenario's metadata the well block has
    sixteen items, COMP and DATE among them, not the two supplied. *)
Lemma well_block_keeps_default_items :
  exists las,
    csv_to_las sample_read_csv (CsvText frame_logs) (Some scenario_well_info)
    = Some las /\
    keys (well las) <> ["WELL"; "FLD"] /\
    In "COMP" (keys (well las)) /\
    In "DATE" (keys (well las)).
Proof.
  eexists. split; [reflexivity|]. split; [discriminate|].
  split; simpl; tauto.
Qed.

(* ------------------------------------------------------------------ *)
(** ** The properties at the sample data *)

Lemma nodup_frame_logs : NoDup (columns frame_logs).
Proof.
  repeat constructor; simpl; intuition discriminate.
Defined.

Lemma csv_to_las_curves_witness :
  exists depth_col depth las rest,
    get_depth_column frame_logs = Ok depth_col /\
    getitem frame_logs depth_col = Ok depth /\
    csv_to_las sample_read_csv (CsvText frame_logs) (Some scenario_well_info)
    = Some las /\
    curves las = mkCurveItem depth_col "m" depth :: rest /\
    Forall2 (plain_curve frame_logs) (other_columns frame_logs depth_col) rest.
Proof.
  apply (csv_to_las_curves sample_read_csv (CsvText frame_logs)
           (Some scenario_well_info) frame_logs).
  - reflexivity.
  - discriminate.
  - simpl. intros key value [H|[H|[]]]; injection H as <- _; tauto.
Defined.

Lemma csv_to_las_well_block_witness :
  exists las,
    csv_to_las sample_read_csv (CsvText frame_logs) (Some scenario_well_info)
    = Some las /\
    keys (well las) = keys default_well /\
    value_of (well las) "WELL" = Some (HText "W-1") /\
    value_of (well las) "FLD" = Some (HText "North") /\
    (forall key, key <> "WELL" -> key <> "FLD" ->
       value_of (well las) key = value_of default_well key).
Proof.
  apply (csv_to_las_well_block sample_read_csv (CsvText frame_logs) frame_logs).
  - reflexivity.
  - discriminate.
Defined.

Lemma get_depth_column_exact_DEPTH_witness :
  get_depth_column frame_logs = Ok "DEPTH".
Proof.
  apply (get_depth_column_exact_DEPTH frame_logs).
  simpl. tauto.
Defined.

Lemma get_depth_column_partial_then_first_witness :
  get_depth_column frame_partial = Ok "MD_depth_m" /\
  get_depth_column frame_plain = Ok "FOO".
Proof.
  split.
  - apply (proj1 (get_depth_column_partial_then_first frame_partial
                    ltac:(simpl; intuition (subst; simpl in *; intuition discriminate)))
             ["WELLNAME"] "MD_depth_m" ["PROF_2"]).
    + reflexivity.
    + apply partial_test_spec. reflexivity.
    + intros c [<-|[]]. apply partial_test_false. reflexivity.
  - apply (proj2 (get_depth_column_partial_then_first frame_plain
                    ltac:(simpl; intuition (subst; simpl in *; intuition discriminate)))
             "FOO" ["BAR"]).
    + reflexivity.
    + intros c [<-|[<-|[]]]; apply partial_test_false; reflexivity.
Defined.

Lemma plot_basic_logs_selection_witness :
  curves_to_plot frame_depth_only "DEPTH" = [] /\
  plot_basic_logs frame_depth_only "DEPTH" = Ok None.
Proof.
  assert (Hnd : NoDup (columns frame_depth_only)).
  { repeat constructor. simpl. tauto. }
  destruct (plot_basic_logs_selection frame_depth_only "DEPTH" Hnd)
    as [Hsel [_ Hnone]].
  split.
  - rewrite Hsel. reflexivity.
  - apply Hnone; [reflexivity|]. simpl. intuition discriminate.
Defined.

Lemma plot_basic_logs_vocabulary_order_witness :
  exists fig,
    plot_basic_logs frame_logs "DEPTH" = Ok (Some fig) /\
    map name (traces fig) = ["GR"; "RHOB"] /\
    map line_color (traces fig) = ["#1f77b4"; "#ff7f0e"].
Proof.
  destruct (plot_basic_logs_vocabulary_order frame_logs "DEPTH")
    as [fig [Hfig [Hnames _]]].
  - discriminate.
  - simpl. tauto.
  - exists fig. split; [exact Hfig|]. split; [exact Hnames|].
    cbv in Hfig. now injection Hfig as <-.
Defined.

Lemma plot_basic_logs_depth_trace_witness :
  get_depth_column frame_gr_first = Ok "GR" /\
  exists fig t ys,
    plot_basic_logs frame_gr_first "GR" = Ok (Some fig) /\
    getitem frame_gr_first "GR" = Ok ys /\
    In t (traces fig) /\ name t = "GR" /\ x t = ys /\ y t = ys.
Proof.
  split; [reflexivity|].
  apply (proj1 (plot_basic_logs_depth_trace frame_gr_first "GR"
                  ltac:(repeat constructor; simpl; intuition discriminate)
                  ltac:(simpl; tauto))).
  simpl. tauto.
Defined.

(* ------------------------------------------------------------------ *)
(** ** Further properties of the resolver *)

Lemma mem_permutation (x : string) (l l' : list string) :
  Permutation l l' -> PyStr.mem x l = PyStr.mem x l'.
Proof.
  intros Hp. destruct (PyStr.mem x l') eqn:E.
  - apply PyStrFacts.mem_In. apply PyStrFacts.mem_In in E.
    apply Permutation_sym in Hp. now apply (Permutation_in x Hp).
  - apply PyStrFacts.mem_false. apply PyStrFacts.mem_false in E.
    intros H. apply E. now apply (Permutation_in x Hp).
Qed.

Lemma find_pointwise {A : Type} (f g : A -> bool) (l : list A) :
  (forall a, f a = g a) -> find f l = find g l.
Proof.
  intros H. induction l as [|a l IH]; simpl; [reflexivity|].
  now rewrite H, IH.
Qed.

Section ResolverMore.

Context {V : Type}.
Implicit Types (df : DataFrame V).

(** Exact names go by the vocabulary's order, not the frame's, and come
    before any partial match: the answer is the first vocabulary name
    that is a column. *)
Theorem get_depth_column_priority df (earlier : list string) (term : string)
    (later : list string) :
  depth_columns = earlier ++ term :: later ->
  In term (columns df) ->
  (forall t, In t earlier -> ~ In t (columns df)) ->
  get_depth_column df = Ok term.
Proof.
  intros Hsplit Hin Hearlier. unfold get_depth_column. rewrite Hsplit.
  rewrite find_first; [reflexivity | now apply PyStrFacts.mem_In |].
  intros t Ht. now apply PyStrFacts.mem_false, Hearlier.
Qed.

(** When some column bears a vocabulary name, the answer does not depend
    on the order of the columns. *)
Theorem get_depth_column_exact_any_order df (df' : DataFrame V) :
  Permutation (columns df) (columns df') ->
  (exists term, In term depth_columns /\ In term (columns df)) ->
  get_depth_column df = get_depth_column df'.
Proof.
  intros Hp [term [Hv Hin]]. unfold get_depth_column.
  rewrite (find_pointwise (fun col => PyStr.mem col (columns df))
                          (fun col => PyStr.mem col (columns df')))
    by (intros a; now apply mem_permutation).
  destruct (find (fun col => PyStr.mem col (columns df')) depth_columns)
    as [col|] eqn:E; [reflexivity|].
  exfalso. pose proof (find_none _ _ E term Hv) as Hf. cbn beta in Hf.
  apply PyStrFacts.mem_false in Hf. apply Hf.
  now apply (Permutation_in term Hp).
Qed.

End ResolverMore.

(* ------------------------------------------------------------------ *)
(** ** Further properties of the plotter *)

Lemma NoDup_colors : NoDup colors.
Proof.
  unfold colors. repeat constructor; simpl; intuition discriminate.
Qed.

Section PlotterMore.

Context {V : Type}.
Implicit Types (df : DataFrame V) (depth_col : string).

Lemma getitem_absent df col :
  ~ In col (columns df) -> getitem df col = Raise (KeyError col).
Proof.
  induction df as [|[c vs] df IH]; simpl; intros H; [reflexivity|].
  destruct (String.eqb_spec c col) as [->|Hne]; [exfalso; auto|].
  apply IH. tauto.
Qed.

Lemma getitem_Ok_column df col vs :
  getitem df col = Ok vs -> In col (columns df).
Proof.
  intros H. apply getitem_Ok_In in H. change col with (fst (col, vs)).
  now apply in_map.
Qed.

(** Without the depth column among the columns, every column is chosen
    on the fallback path, so a frame with columns has curves to plot. *)
Lemma curves_to_plot_nonempty df depth_col :
  columns df <> [] -> ~ In depth_col (columns df) ->
  curves_to_plot df depth_col <> [].
Proof.
  intros Hne Hnot. unfold curves_to_plot.
  destruct (filter _ available_curves); [|discriminate].
  apply PyStrFacts.mem_false in Hnot. now rewrite Hnot.
Qed.

(** A figure comes from the loop over the chosen curves, and the depth
    column was there to be read. *)
Lemma plot_figure_inv df depth_col (fig : Figure V) :
  plot_basic_logs df depth_col = Ok (Some fig) ->
  exists ys,
    getitem df depth_col = Ok ys /\
    curves_to_plot df depth_col <> [] /\
    add_traces df depth_col 0 (curves_to_plot df depth_col) = Ok (traces fig) /\
    yaxis_autorange fig = "reversed" /\
    yaxis_title fig = ("Profundidade (" ++ depth_col ++ ")")%string.
Proof.
  rewrite plot_unfold.
  remember (curves_to_plot df depth_col) as chosen eqn:E.
  destruct chosen as [|c l]; [discriminate|].
  destruct (add_traces df depth_col 0 (c :: l)) as [trs|e] eqn:Ht;
    cbn [bind]; [|discriminate].
  intros [= <-]. cbn [traces yaxis_autorange yaxis_title].
  cbn [add_traces] in Ht.
  destruct (getitem df c) as [xs|]; cbn [bind] in Ht; [|discriminate].
  destruct (getitem df depth_col) as [ys|]; cbn [bind] in Ht; [|discriminate].
  exists ys. repeat split; try reflexivity. discriminate.
Qed.

(** What the traces of a figure are. *)
Lemma plot_figure_traces df depth_col (fig : Figure V) :
  plot_basic_logs df depth_col = Ok (Some fig) ->
  exists ys,
    getitem df depth_col = Ok ys /\
    map name (traces fig) = curves_to_plot df depth_col /\
    forall k t, nth_error (traces fig) k = Some t ->
      line_color t = nth (k mod length colors) colors "" /\
      y t = ys /\ getitem df (name t) = Ok (x t).
Proof.
  intros H. destruct (plot_figure_inv df depth_col fig H)
    as [ys [Hy [_ [Htr _]]]].
  destruct (add_traces_ok df depth_col ys (curves_to_plot df depth_col) Hy
              (curves_to_plot_columns df depth_col) 0) as [trs [Htr' [Hn Hk]]].
  rewrite Htr in Htr'. injection Htr' as <-.
  exists ys. split; [exact Hy|]. split; [exact Hn|]. exact Hk.
Qed.

(** A depth column that the frame does not have is a [KeyError] as soon
    as there is a column to plot; the plotter does not catch it. *)
Theorem plot_basic_logs_KeyError df depth_col :
  columns df <> [] ->
  ~ In depth_col (columns df) ->
  plot_basic_logs df depth_col = Raise (KeyError depth_col).
Proof.
  intros Hne Hnot. rewrite plot_unfold.
  pose proof (curves_to_plot_nonempty df depth_col Hne Hnot) as Hc.
  pose proof (curves_to_plot_columns df depth_col) as Hin.
  destruct (curves_to_plot df depth_col) as [|c l]; [contradiction|].
  cbn [add_traces].
  destruct (getitem_In df c (Hin c (or_introl eq_refl))) as [xs ->].
  cbn [bind]. now rewrite (getitem_absent df depth_col Hnot).
Qed.

Lemma plot_ok df depth_col :
  In depth_col (columns df) ->
  exists answer, plot_basic_logs df depth_col = Ok answer.
Proof.
  intros Hin. destruct (getitem_In df depth_col Hin) as [ys Hy].
  destruct (add_traces_ok df depth_col ys (curves_to_plot df depth_col) Hy
              (curves_to_plot_columns df depth_col) 0) as [trs [Htr _]].
  rewrite plot_unfold, Htr.
  destruct (curves_to_plot df depth_col); eexists; reflexivity.
Qed.

(** On a frame with columns of distinct names, with the column the
    resolver answers, as [main] calls it, the plotter never raises: it
    returns a figure or [None]. *)
Theorem plot_basic_logs_resolved df :
  columns df <> [] ->
  NoDup (columns df) ->
  exists depth_col answer,
    get_depth_column df = Ok depth_col /\
    plot_basic_logs df depth_col = Ok answer.
Proof.
  intros Hne _. destruct (get_depth_column_In df Hne) as [depth_col [Hd Hin]].
  destruct (plot_ok df depth_col Hin) as [answer Ha].
  now exists depth_col, answer.
Qed.

(** In any figure the plotter returns, there is one trace per chosen
    curve, in the order chosen; every trace has the depth column on the
    vertical axis and its own column on the horizontal one; and the
    vertical axis is reversed and titled with the depth column's name. *)
Theorem plot_basic_logs_figure df depth_col (fig : Figure V) :
  plot_basic_logs df depth_col = Ok (Some fig) ->
  exists ys,
    getitem df depth_col = Ok ys /\
    map name (traces fig) = curves_to_plot df depth_col /\
    Forall (fun t => y t = ys /\ getitem df (name t) = Ok (x t)) (traces fig) /\
    yaxis_autorange fig = "reversed" /\
    yaxis_title fig = ("Profundidade (" ++ depth_col ++ ")")%string.
Proof.
  intros H.
  destruct (plot_figure_traces df depth_col fig H) as [ys [Hy [Hn Hk]]].
  destruct (plot_figure_inv df depth_col fig H) as [_ [_ [_ [_ [Ha Ht]]]]].
  exists ys. repeat split; try assumption.
  apply Forall_forall. intros t Hin.
  destruct (In_nth_error _ _ Hin) as [k Hkth].
  now destruct (Hk k t Hkth) as [_ H'].
Qed.

(** Without vocabulary curves, a frame that has other columns than its
    depth column gets a figure with exactly those columns as traces, in
    the frame's order. *)
Theorem plot_basic_logs_fallback df depth_col :
  NoDup (columns df) ->
  In depth_col (columns df) ->
  vocabulary_curves df = [] ->
  other_columns df depth_col <> [] ->
  exists fig,
    plot_basic_logs df depth_col = Ok (Some fig) /\
    map name (traces fig) = other_columns df depth_col.
Proof.
  intros Hnd Hin Hv Hother.
  destruct (getitem_In df depth_col Hin) as [ys Hy].
  destruct (add_traces_ok df depth_col ys (curves_to_plot df depth_col) Hy
              (curves_to_plot_columns df depth_col) 0) as [trs [Htr [Hn _]]].
  assert (Hsel : curves_to_plot df depth_col = other_columns df depth_col).
  { now rewrite (curves_to_plot_spec df depth_col Hnd), Hv. }
  eexists. split.
  - apply plot_some; [|exact Htr]. now rewrite Hsel.
  - cbn [traces]. now rewrite Hn.
Qed.

Lemma colors_prefix (trs : list (Scatter V)) :
  length trs <= length colors ->
  (forall k t, nth_error trs k = Some t ->
               line_color t = nth (k mod length colors) colors "") ->
  map line_color trs = firstn (length trs) colors.
Proof.
  intros Hlen Hk. apply nth_error_ext. intros k.
  destruct (nth_error trs k) as [t|] eqn:E.
  - rewrite (map_nth_error _ _ _ E).
    assert (Hlt : k < length trs) by (apply nth_error_Some; congruence).
    rewrite nth_error_firstn.
    destruct (Nat.ltb_spec k (length trs)) as [_|]; [|lia].
    rewrite (Hk k t E), Nat.mod_small by lia.
    symmetry. apply nth_error_nth'. lia.
  - apply nth_error_None in E. rewrite nth_error_map.
    assert (E' : nth_error trs k = None) by now apply nth_error_None.
    rewrite E'. cbn. symmetry. apply nth_error_None.
    rewrite length_firstn. lia.
Qed.

(** On the vocabulary path the palette never wraps: the traces take the
    first colours of the palette, one each, all different. *)
Theorem plot_basic_logs_vocabulary_colours df depth_col (fig : Figure V) :
  vocabulary_curves df <> [] ->
  plot_basic_logs df depth_col = Ok (Some fig) ->
  map line_color (traces fig) = firstn (length (traces fig)) colors /\
  NoDup (map line_color (traces fig)).
Proof.
  intros Hv H.
  destruct (plot_figure_traces df depth_col fig H) as [ys [_ [Hn Hk]]].
  assert (Hsel : curves_to_plot df depth_col = vocabulary_curves df).
  { unfold curves_to_plot. fold (vocabulary_curves df).
    destruct (vocabulary_curves df); [contradiction | reflexivity]. }
  assert (Hlen : length (traces fig) <= length colors).
  { rewrite <- (length_map name), Hn, Hsel. unfold vocabulary_curves.
    apply (filter_length_le _ available_curves). }
  assert (Hc : map line_color (traces fig)
               = firstn (length (traces fig)) colors).
  { apply colors_prefix; [exact Hlen|]. intros k t E. now destruct (Hk k t E). }
  split; [exact Hc|]. rewrite Hc.
  assert (Hnd : NoDup (firstn (length (traces fig)) colors
                       ++ skipn (length (traces fig)) colors)).
  { rewrite firstn_skipn. exact NoDup_colors. }
  now apply NoDup_app_remove_r in Hnd.
Qed.

(** The palette has seven colours and is taken by position modulo
    seven: on a figure with more traces, the traces seven apart share a
    colour. *)
Theorem plot_basic_logs_palette_wraps df depth_col (fig : Figure V)
    (i : nat) (t t' : Scatter V) :
  plot_basic_logs df depth_col = Ok (Some fig) ->
  nth_error (traces fig) i = Some t ->
  nth_error (traces fig) (i + 7) = Some t' ->
  line_color t = line_color t'.
Proof.
  intros H Hi Hi'.
  destruct (plot_figure_traces df depth_col fig H) as [ys [_ [_ Hk]]].
  destruct (Hk i t Hi) as [-> _]. destruct (Hk (i + 7) t' Hi') as [-> _].
  f_equal. change (length colors) with 7.
  rewrite <- (Nat.Div0.mod_add i 1 7). now rewrite Nat.mul_1_l.
Qed.

End PlotterMore.

(* ------------------------------------------------------------------ *)
(** ** Further properties of [las_to_csv] *)

Section LasToCsvMore.

Context {V File : Type}.
Variable lasio_read : File -> result (LASFile V).
Implicit Types (las : LASFile V) (df : DataFrame V).

(** The frame [las_to_csv] returns for a document with curves, the
    first of which shares its mnemonic with no other. *)
Lemma las_to_csv_frame (las_file : File) las (c : CurveItem V)
    (rest : list (CurveItem V)) :
  lasio_read las_file = Ok las ->
  curves las = c :: rest ->
  ~ In (mnemonic c) (map mnemonic rest) ->
  las_to_csv lasio_read las_file
  = Some (rename "index" (depth_name_of (index_unit las))
                 (map curve_column (curves las))).
Proof.
  intros Hread Hc Hnot. unfold las_to_csv. rewrite Hread. cbn [bind].
  unfold las_df, reset_index. rewrite Hc.
  cbn [map bind index_name body index_values].
  assert (Hm : PyStr.mem (mnemonic c)
                 (columns (map (fun c0 => (mnemonic c0, data c0)) rest)) = false).
  { apply PyStrFacts.mem_false. unfold columns. rewrite map_map. exact Hnot. }
  rewrite Hm. reflexivity.
Qed.

Lemma NoDup_first {A : Type} (a : A) (l : list A) :
  NoDup (a :: l) -> ~ In a l.
Proof. intros H. now inversion H. Qed.

(** Of a document with distinct mnemonics [las_to_csv] makes one column
    per curve, in the order of the curves, with the curve's values; the
    column bears the curve's mnemonic, except that a curve called
    "index" gets the name of the index unit ("DEPTH" without one). *)
Theorem las_to_csv_one_column_per_curve (las_file : File) las :
  lasio_read las_file = Ok las ->
  curves las <> [] ->
  NoDup (map mnemonic (curves las)) ->
  exists back,
    las_to_csv lasio_read las_file = Some back /\
    map snd back = map data (curves las) /\
    columns back =
      map (fun m => if String.eqb m "index"
                    then depth_name_of (index_unit las) else m)
          (map mnemonic (curves las)).
Proof.
  intros Hread Hne Hnd.
  destruct (curves las) as [|c rest] eqn:Hc; [contradiction|].
  pose proof (las_to_csv_frame las_file las c rest Hread Hc
                (NoDup_first _ _ Hnd)) as H.
  rewrite Hc in H. eexists. split; [exact H|].
  unfold rename, columns, curve_column. rewrite !map_map. cbn [fst snd].
  split; reflexivity.
Qed.

(** When no curve is called "index", the index unit plays no part: the
    columns are the curves, names and values, as they are. *)
Theorem las_to_csv_ignores_index_unit (las_file : File) las :
  lasio_read las_file = Ok las ->
  curves las <> [] ->
  NoDup (map mnemonic (curves las)) ->
  ~ In "index" (map mnemonic (curves las)) ->
  las_to_csv lasio_read las_file = Some (map curve_column (curves las)).
Proof.
  intros Hread Hne Hnd Hidx.
  destruct (curves las) as [|c rest] eqn:Hc; [contradiction|].
  rewrite (las_to_csv_frame las_file las c rest Hread Hc (NoDup_first _ _ Hnd)).
  rewrite Hc. f_equal. apply rename_absent.
  unfold columns, curve_column. now rewrite map_map.
Qed.

(** [las_to_csv] answers [None] exactly when reading the file raised,
    for a reader whose documents have curves with distinct mnemonics. *)
Theorem las_to_csv_None_iff (las_file : File) :
  (forall las, lasio_read las_file = Ok las ->
     curves las <> [] /\ NoDup (map mnemonic (curves las))) ->
  (las_to_csv lasio_read las_file = None <->
   exists e, lasio_read las_file = Raise e).
Proof.
  intros Hdoc. split.
  - intros Hnone. destruct (lasio_read las_file) as [las|e] eqn:Hread.
    + destruct (Hdoc las eq_refl) as [Hne Hnd].
      destruct (curves las) as [|c rest] eqn:Hc; [contradiction|].
      rewrite (las_to_csv_frame las_file las c rest Hread Hc
                 (NoDup_first _ _ Hnd)) in Hnone.
      discriminate.
    + now exists e.
  - intros [e He]. unfold las_to_csv. now rewrite He.
Qed.

(** Whatever it read, a frame that [las_to_csv] returns has a column. *)
Lemma las_to_csv_has_column (las_file : File) df :
  las_to_csv lasio_read las_file = Some df -> columns df <> [].
Proof.
  unfold las_to_csv. destruct (lasio_read las_file) as [las|]; cbn [bind catch];
    [|discriminate].
  destruct (las_df las) as [frame|]; cbn [bind catch]; [|discriminate].
  unfold reset_index.
  destruct (PyStr.mem _ _); cbn [bind catch];
    [discriminate|].
  intros [= <-]. discriminate.
Qed.

(** In the LAS branch of [main] neither the resolver nor the plotter
    raises, although neither call is guarded: a frame that [las_to_csv]
    returns has a column, the resolver answers one of its columns, and
    the plotter accepts that column. *)
Theorem main_las_para_csv_no_exception (las_file : File) :
  exists shown, main_las_para_csv lasio_read las_file = Ok shown.
Proof.
  unfold main_las_para_csv.
  destruct (las_to_csv lasio_read las_file) as [df|] eqn:E.
  - pose proof (las_to_csv_has_column las_file df E) as Hne.
    destruct (get_depth_column_In df Hne) as [depth_col [Hd Hin]].
    destruct (plot_ok df depth_col Hin) as [answer Ha].
    rewrite Hd. cbn [bind]. rewrite Ha. cbn [bind]. eexists. reflexivity.
  - eexists. reflexivity.
Qed.

End LasToCsvMore.

(* ------------------------------------------------------------------ *)
(** ** Further properties of [csv_to_las] *)

Lemma set_item_value_units (items items' : list HeaderItem) (key : string)
    (value : hvalue) :
  set_item_value items key value = Ok items' ->
  map h_unit items' = map h_unit items /\
  map h_descr items' = map h_descr items /\
  keys items' = keys items.
Proof.
  revert items'. induction items as [|item items IH]; intros items'; simpl;
    [discriminate|].
  destruct (String.eqb (h_mnemonic item) key).
  - intros [= <-]. simpl. auto.
  - destruct (set_item_value items key value) as [rest|]; cbn [bind];
      [|discriminate].
    intros [= <-]. destruct (IH rest eq_refl) as [H1 [H2 H3]].
    unfold keys in *. simpl. now rewrite H1, H2, H3.
Qed.

Lemma filter_map_fst {V : Type} (f : string -> bool) (df : DataFrame V) :
  filter f (columns df) = columns (filter (fun col => f (fst col)) df).
Proof.
  induction df as [|[c vs] df IH]; simpl; [reflexivity|].
  destruct (f c); simpl; now rewrite IH.
Qed.

Lemma plain_curves_columns {V : Type} (df : DataFrame V)
    (part : DataFrame V) (cs : list (CurveItem V)) :
  NoDup (columns df) ->
  (forall col, In col part -> In col df) ->
  Forall2 (plain_curve df) (columns part) cs ->
  map curve_column cs = part.
Proof.
  intros Hnd. revert cs. induction part as [|[c vs] part IH]; intros cs Hsub Hf.
  - inversion Hf. reflexivity.
  - cbn [columns map fst] in Hf.
    inversion Hf as [|col0 c' cols0 cs' Hp Hrest]; subst.
    destruct Hp as [Hm [_ Hd]]. cbn [map].
    rewrite (getitem_NoDup df c vs Hnd (Hsub _ (or_introl eq_refl))) in Hd.
    injection Hd as Hd. unfold curve_column at 1. rewrite Hm, <- Hd. f_equal.
    apply IH; [|exact Hrest]. intros col H. apply Hsub. now right.
Qed.

Lemma plain_curves_unique {V : Type} (df : DataFrame V) (cols : list string)
    (cs cs' : list (CurveItem V)) :
  Forall2 (plain_curve df) cols cs -> Forall2 (plain_curve df) cols cs' ->
  cs = cs'.
Proof.
  intros H. revert cs'. induction H as [|col c cols cs [Hm [Hu Hd]] _ IH];
    intros cs' H'; inversion H' as [|? c' ? cs'' [Hm' [Hu' Hd']] Hrest]; subst;
    [reflexivity|].
  f_equal; [|now apply IH].
  destruct c as [m u d], c' as [m' u' d']. cbn in *. subst.
  rewrite Hd in Hd'. now injection Hd' as ->.
Qed.

Lemma plain_curves_units {V : Type} (df : DataFrame V) (cols : list string)
    (cs : list (CurveItem V)) :
  Forall2 (plain_curve df) cols cs -> Forall (fun c => unit c = "") cs.
Proof.
  induction 1 as [|col c cols cs [_ [Hu _]] _ IH]; constructor; assumption.
Qed.

Lemma depth_first_columns {V : Type} (df : DataFrame V) (d : string)
    (depth : list V) :
  NoDup (columns df) -> In (d, depth) df ->
  Permutation ((d, depth) :: filter (fun col => negb (String.eqb (fst col) d)) df)
              df.
Proof.
  induction df as [|[c vs] df IH]; intros Hnd Hin; [destruct Hin|].
  inversion Hnd as [|? ? Hnot Hnd']; subst. cbn [filter fst].
  destruct (String.eqb_spec c d) as [->|Hne]; cbn [negb].
  - destruct Hin as [[= ->]|Hin].
    + constructor.
      assert (E : filter (fun col => negb (String.eqb (fst col) d)) df = df).
      { clear IH Hnd Hnd'. induction df as [|[c' vs'] df IH]; [reflexivity|].
        cbn [filter fst]. destruct (String.eqb_spec c' d) as [->|Hc].
        - exfalso. apply Hnot. now left.
        - cbn [negb]. f_equal. apply IH. intros H. apply Hnot. now right. }
      now rewrite E.
    + exfalso. apply Hnot. change d with (fst (d, depth)). now apply in_map.
  - destruct Hin as [[= E _]|Hin]; [contradiction|].
    etransitivity; [apply perm_swap|]. constructor. now apply IH.
Qed.

Section CsvToLasMore.

Context {V File : Type}.
Variable pd_read_csv : File -> result (DataFrame V).
Implicit Types (df : DataFrame V) (las : LASFile V).

(** The loop over the metadata, for distinct keys that the section has:
    every key ends with its value, every other item keeps its own, and
    no item is added, removed, or changed in unit or description. *)
Lemma write_well_values (items : well_dict) : forall las las',
  NoDup (map fst items) ->
  write_well las items = Ok las' ->
  (forall key value, In (key, value) items ->
     value_of (well las') key = Some value) /\
  (forall key, ~ In key (map fst items) ->
     value_of (well las') key = value_of (well las) key) /\
  map h_unit (well las') = map h_unit (well las) /\
  map h_descr (well las') = map h_descr (well las).
Proof.
  induction items as [|[k v] items IH]; intros las las' Hnd Hw.
  - injection Hw as <-. repeat split; auto. intros key value [].
  - cbn [write_well] in Hw. unfold well_setitem in Hw.
    destruct (set_item_value (well las) k v) as [items1|] eqn:E;
      cbn [bind] in Hw; [|discriminate].
    inversion Hnd as [|? ? Hnot Hnd']; subst.
    destruct (IH _ _ Hnd' Hw) as [Hin [Hout [Hu Hd]]].
    cbn [well] in Hout, Hu, Hd.
    destruct (set_item_value_units _ _ _ _ E) as [Hu1 [Hd1 _]].
    split; [|split; [|split]].
    + intros key value [[= <- <-]|H].
      * rewrite (Hout k Hnot). exact (value_of_set_same _ _ _ _ E).
      * now apply Hin.
    + intros key Hkey. cbn [map fst] in Hkey.
      rewrite Hout by (intros H; apply Hkey; now right).
      apply (value_of_set_other _ _ _ _ _ E). intros ->. apply Hkey. now left.
    + now rewrite Hu, Hu1.
    + now rewrite Hd, Hd1.
Qed.

Lemma csv_to_las_empty (csv_file : File) (well_info : option well_dict) df :
  pd_read_csv csv_file = Ok df ->
  columns df = [] ->
  csv_to_las pd_read_csv csv_file well_info = None.
Proof.
  intros Hread Hempty. unfold csv_to_las. rewrite Hread. cbn [bind].
  destruct (match well_info with
            | Some ((_ :: _) as items) => write_well LASFile_new items
            | _ => Ok LASFile_new
            end) as [las0|]; cbn [bind]; [|reflexivity].
  unfold get_depth_column. rewrite Hempty. reflexivity.
Qed.

(** With metadata the well section can take, [csv_to_las] answers
    [None] in two cases only: reading the file raised, or the frame has
    no column ([df.columns[0]] raises inside the [try]). *)
Theorem csv_to_las_None_iff (csv_file : File) (well_info : option well_dict) :
  well_keys_known well_info ->
  (csv_to_las pd_read_csv csv_file well_info = None <->
   (exists e, pd_read_csv csv_file = Raise e) \/
   (exists df, pd_read_csv csv_file = Ok df /\ columns df = [])).
Proof.
  intros Hkeys. split.
  - intros Hnone. destruct (pd_read_csv csv_file) as [df|e] eqn:Hread.
    + right. exists df. split; [reflexivity|].
      destruct (columns df) as [|c cs] eqn:Hc; [reflexivity|].
      assert (Hne : columns df <> []) by (rewrite Hc; discriminate).
      destruct (csv_to_las_ok pd_read_csv csv_file well_info df Hread Hne Hkeys)
        as [d [depth [las [rest [_ [_ [Hsome _]]]]]]].
      congruence.
    + left. now exists e.
  - intros [[e He]|[df [Hread Hempty]]].
    + unfold csv_to_las. now rewrite He.
    + now apply (csv_to_las_empty csv_file well_info df).
Qed.

(** The well block after any metadata with distinct keys that the
    section has: each supplied key holds its value, every other item
    holds its default, and the block has the same items, units and
    descriptions as that of a new document. *)
Theorem csv_to_las_well_values (csv_file : File) (items : well_dict) df :
  pd_read_csv csv_file = Ok df ->
  columns df <> [] ->
  NoDup (map fst items) ->
  well_keys_known (Some items) ->
  exists las,
    csv_to_las pd_read_csv csv_file (Some items) = Some las /\
    keys (well las) = keys default_well /\
    map h_unit (well las) = map h_unit default_well /\
    map h_descr (well las) = map h_descr default_well /\
    (forall key value, In (key, value) items ->
       value_of (well las) key = Some value) /\
    (forall key, ~ In key (map fst items) ->
       value_of (well las) key = value_of default_well key).
Proof.
  intros Hread Hne Hnd Hkeys.
  destruct (csv_to_las_ok pd_read_csv csv_file (Some items) df Hread Hne Hkeys)
    as [d [depth [las [rest [_ [_ [Hsome [Hw [Hk _]]]]]]]]].
  assert (Hw' : write_well (@LASFile_new V) items
                = Ok (mkLASFile (well las) [] None)).
  { destruct items; [|exact Hw]. cbn [write_well].
    now injection Hw as <-. }
  destruct (write_well_values items _ _ Hnd Hw') as [Hin [Hout [Hu Hd]]].
  exists las. repeat split; assumption.
Qed.

Lemma csv_to_las_columns (csv_file : File) (well_info : option well_dict) df :
  pd_read_csv csv_file = Ok df ->
  columns df <> [] ->
  NoDup (columns df) ->
  well_keys_known well_info ->
  exists las depth_col depth rest,
    csv_to_las pd_read_csv csv_file well_info = Some las /\
    get_depth_column df = Ok depth_col /\
    curves las = mkCurveItem depth_col "m" depth :: rest /\
    Forall (fun c => unit c = "") rest /\
    map curve_column (curves las) =
      (depth_col, depth)
        :: filter (fun col => negb (String.eqb (fst col) depth_col)) df /\
    Permutation (map curve_column (curves las)) df.
Proof.
  intros Hread Hne Hnd Hkeys.
  destruct (csv_to_las_ok pd_read_csv csv_file well_info df Hread Hne Hkeys)
    as [d [depth [las [rest [Hd [Hdepth [Hsome [_ [_ [Hc Hf]]]]]]]]]].
  exists las, d, depth, rest. split; [exact Hsome|]. split; [exact Hd|].
  split; [exact Hc|]. split; [exact (plain_curves_units df _ _ Hf)|].
  assert (Hrest : map curve_column rest
                  = filter (fun col => negb (String.eqb (fst col) d)) df).
  { apply (plain_curves_columns df); [exact Hnd | |].
    - intros col H. now apply filter_In in H.
    - rewrite <- (filter_map_fst (fun c => negb (String.eqb c d))). exact Hf. }
  assert (E : map curve_column (curves las)
              = (d, depth) :: filter (fun col => negb (String.eqb (fst col) d)) df).
  { rewrite Hc. cbn [map]. now rewrite Hrest. }
  split; [exact E|]. rewrite E.
  apply depth_first_columns; [exact Hnd | now apply getitem_Ok_In].
Qed.

(** With distinct column names the curves of the document are the
    columns of the frame, names and values, the depth column moved to
    the front: no column is lost, repeated or altered. *)
Theorem csv_to_las_keeps_columns (csv_file : File)
    (well_info : option well_dict) df :
  pd_read_csv csv_file = Ok df ->
  columns df <> [] ->
  NoDup (columns df) ->
  well_keys_known well_info ->
  exists las depth_col depth,
    csv_to_las pd_read_csv csv_file well_info = Some las /\
    get_depth_column df = Ok depth_col /\
    map curve_column (curves las) =
      (depth_col, depth)
        :: filter (fun col => negb (String.eqb (fst col) depth_col)) df /\
    Permutation (map curve_column (curves las)) df.
Proof.
  intros Hread Hne Hnd Hkeys.
  destruct (csv_to_las_columns csv_file well_info df Hread Hne Hnd Hkeys)
    as [las [d [depth [rest [H1 [H2 [_ [_ [H3 H4]]]]]]]]].
  now exists las, d, depth.
Qed.

(** The metadata never reaches the curves: two conversions of the same
    file with different metadata give the same curves. *)
Theorem csv_to_las_curves_ignore_metadata (csv_file : File)
    (well_info well_info' : option well_dict) las (las' : LASFile V) :
  csv_to_las pd_read_csv csv_file well_info = Some las ->
  csv_to_las pd_read_csv csv_file well_info' = Some las' ->
  curves las = curves las'.
Proof.
  unfold csv_to_las.
  destruct (pd_read_csv csv_file) as [df|]; cbn [bind catch]; [|discriminate].
  destruct (match well_info with
            | Some ((_ :: _) as items) => write_well LASFile_new items
            | _ => Ok LASFile_new
            end) as [las0|] eqn:E0; cbn [bind catch]; [|discriminate].
  destruct (match well_info' with
            | Some ((_ :: _) as items) => write_well LASFile_new items
            | _ => Ok LASFile_new
            end) as [las0'|] eqn:E0'; cbn [bind catch]; [|discriminate].
  destruct (get_depth_column df) as [d|]; cbn [bind catch]; [|discriminate].
  destruct (getitem df d) as [depth|]; cbn [bind catch]; [|discriminate].
  assert (Hc : curves las0 = [] /\ curves las0' = []).
  { split.
    - destruct well_info as [[|kv items]|]; try (now injection E0 as <-).
      assert (Hgen : forall its l l', write_well (V:=V) l its = Ok l' ->
                                      curves l' = curves l).
      { induction its as [|[k v] its IH]; intros l l' H.
        - now injection H as <-.
        - cbn [write_well] in H. unfold well_setitem in H.
          destruct (set_item_value (well l) k v); cbn [bind] in H;
            [|discriminate].
          now rewrite (IH _ _ H). }
      now rewrite (Hgen _ _ _ E0).
    - destruct well_info' as [[|kv items]|]; try (now injection E0' as <-).
      assert (Hgen : forall its l l', write_well (V:=V) l its = Ok l' ->
                                      curves l' = curves l).
      { induction its as [|[k v] its IH]; intros l l' H.
        - now injection H as <-.
        - cbn [write_well] in H. unfold well_setitem in H.
          destruct (set_item_value (well l) k v); cbn [bind] in H;
            [|discriminate].
          now rewrite (IH _ _ H). }
      now rewrite (Hgen _ _ _ E0'). }
  destruct Hc as [Hc Hc'].
  destruct (append_others_ok df d (columns df) (fun c H => H)
              (append_curve las0 d depth "m")) as [added [Ha Hf]].
  destruct (append_others_ok df d (columns df) (fun c H => H)
              (append_curve las0' d depth "m")) as [added' [Ha' Hf']].
  rewrite Ha, Ha'. cbn [catch]. intros [= <-] [= <-].
  cbn [curves append_curve]. rewrite Hc, Hc'.
  now rewrite (plain_curves_unique df _ added added' Hf Hf').
Qed.

(** The call of [csv_to_las] in the CSV branch of [main]: on any frame
    with a column it returns a document, whatever the four inputs are;
    in that document the inputs are the values of WELL, FLD, COMP and
    DATE and the other twelve items hold their defaults. *)
Theorem main_call_csv_to_las_well (csv_file : File)
    (poco campo companhia : string) (data : nat * nat * nat) df :
  pd_read_csv csv_file = Ok df ->
  columns df <> [] ->
  exists las,
    main_call_csv_to_las pd_read_csv csv_file poco campo companhia data
    = Some las /\
    value_of (well las) "WELL" = Some (HText poco) /\
    value_of (well las) "FLD" = Some (HText campo) /\
    value_of (well las) "COMP" = Some (HText companhia) /\
    value_of (well las) "DATE"
    = Some (HDate (fst (fst data)) (snd (fst data)) (snd data)) /\
    (forall key, ~ In key ["WELL"; "FLD"; "COMP"; "DATE"] ->
       value_of (well las) key = value_of default_well key).
Proof.
  intros Hread Hne. unfold main_call_csv_to_las.
  set (items := main_well_info poco campo companhia data).
  assert (Hkeys : well_keys_known (Some items)).
  { intros key value H. cbn in H.
    destruct H as [[= <- _]|[[= <- _]|[[= <- _]|[[= <- _]|[]]]]]; cbn; tauto. }
  assert (Hnd : NoDup (map fst items)).
  { cbn. repeat constructor; cbn; intuition discriminate. }
  destruct (csv_to_las_ok pd_read_csv csv_file (Some items) df Hread Hne Hkeys)
    as [d [depth [las [rest [_ [_ [Hsome [Hw _]]]]]]]].
  cbn [items main_well_info] in Hw.
  destruct (write_well_values _ _ _ Hnd Hw) as [Hin [Hout _]].
  exists las. split; [exact Hsome|].
  repeat split; try (apply Hin; cbn; tauto).
  intros key Hkey. now apply Hout.
Qed.

End CsvToLasMore.

(* ------------------------------------------------------------------ *)
(** ** LAS to CSV and back to LAS *)

Section LasCsvLas.

Context {V File : Type}.
Variable lasio_read : File -> result (LASFile V).
Variable pd_read_csv : File -> result (DataFrame V).
Implicit Types (las : LASFile V) (df : DataFrame V).

(** A document with distinct mnemonics, none of them "index", that goes
    through [las_to_csv] and then, as the table it became, through
    [csv_to_las] keeps its curves, names and values, up to the place of
    the resolved depth curve; but the units do not survive: the first
    curve of the new document has unit "m" and all the others none. *)
Theorem las_csv_las_units_reset (las_file csv_file : File)
    (well_info : option well_dict) las df :
  lasio_read las_file = Ok las ->
  curves las <> [] ->
  NoDup (map mnemonic (curves las)) ->
  ~ In "index" (map mnemonic (curves las)) ->
  las_to_csv lasio_read las_file = Some df ->
  pd_read_csv csv_file = Ok df ->
  well_keys_known well_info ->
  exists las2 first others,
    csv_to_las pd_read_csv csv_file well_info = Some las2 /\
    Permutation (map curve_column (curves las2))
                (map curve_column (curves las)) /\
    curves las2 = first :: others /\
    unit first = "m" /\
    Forall (fun c => unit c = "") others.
Proof.
  intros Hread Hne Hnd Hidx Hback Hcsv Hkeys.
  assert (Hdf : df = map curve_column (curves las)).
  { destruct (curves las) as [|c rest] eqn:Hc; [contradiction|].
    rewrite (las_to_csv_frame lasio_read las_file las c rest Hread Hc
               (NoDup_first _ _ Hnd)) in Hback.
    injection Hback as <-. rewrite Hc. apply rename_absent.
    unfold columns, curve_column. now rewrite map_map. }
  assert (Hcols : columns df = map mnemonic (curves las)).
  { rewrite Hdf. unfold columns, curve_column. now rewrite map_map. }
  assert (Hne' : columns df <> []).
  { rewrite Hcols. destruct (curves las); [contradiction | discriminate]. }
  assert (Hnd' : NoDup (columns df)) by now rewrite Hcols.
  destruct (csv_to_las_columns pd_read_csv csv_file well_info df
              Hcsv Hne' Hnd' Hkeys)
    as [las2 [d [depth [rest [H1 [_ [H3 [H4 [_ H6]]]]]]]]].
  exists las2, (mkCurveItem d "m" depth), rest.
  split; [exact H1|]. split; [now rewrite <- Hdf|].
  split; [exact H3|]. split; [reflexivity | exact H4].
Qed.

End LasCsvLas.

(* ------------------------------------------------------------------ *)
(** ** The further properties at the sample data *)

Lemma get_depth_column_priority_witness :
  get_depth_column frame_priority = Ok "MD".
Proof.
  apply (get_depth_column_priority frame_priority ["DEPTH"] "MD"
           ["TVD"; "DEPT"; "PROFUNDIDADE"; "PROF"]).
  - reflexivity.
  - simpl. tauto.
  - intros t [<-|[]]. simpl. intuition discriminate.
Defined.

Lemma get_depth_column_exact_any_order_witness :
  get_depth_column frame_logs = get_depth_column frame_logs_shuffled.
Proof.
  apply (get_depth_column_exact_any_order frame_logs frame_logs_shuffled).
  - cbn. apply Permutation_sym.
    apply (perm_trans (l' := ["GR"; "RHOB"; "DEPTH"])).
    + apply perm_swap.
    + apply perm_skip. apply perm_swap.
  - exists "DEPTH". simpl. tauto.
Defined.

Lemma plot_basic_logs_KeyError_witness :
  plot_basic_logs frame_logs "MD" = Raise (KeyError "MD").
Proof.
  apply (plot_basic_logs_KeyError frame_logs "MD").
  - discriminate.
  - simpl. intuition discriminate.
Defined.

Lemma plot_basic_logs_resolved_witness :
  exists depth_col answer,
    get_depth_column frame_plain = Ok depth_col /\
    plot_basic_logs frame_plain depth_col = Ok answer.
Proof.
  apply (plot_basic_logs_resolved frame_plain).
  - discriminate.
  - repeat constructor; simpl; intuition discriminate.
Defined.

Lemma plot_basic_logs_figure_witness :
  exists ys,
    getitem frame_logs "DEPTH" = Ok ys /\
    map name (traces figure_logs) = curves_to_plot frame_logs "DEPTH" /\
    Forall (fun t => y t = ys /\ getitem frame_logs (name t) = Ok (x t))
           (traces figure_logs) /\
    yaxis_autorange figure_logs = "reversed" /\
    yaxis_title figure_logs = "Profundidade (DEPTH)".
Proof.
  apply (plot_basic_logs_figure frame_logs "DEPTH" figure_logs). reflexivity.
Defined.

Lemma plot_basic_logs_fallback_witness :
  exists fig,
    plot_basic_logs frame_plain "FOO" = Ok (Some fig) /\
    map name (traces fig) = other_columns frame_plain "FOO".
Proof.
  apply (plot_basic_logs_fallback frame_plain "FOO").
  - repeat constructor; simpl; intuition discriminate.
  - simpl. tauto.
  - reflexivity.
  - discriminate.
Defined.

Lemma plot_basic_logs_vocabulary_colours_witness :
  map line_color (traces figure_logs)
  = firstn (length (traces figure_logs)) colors /\
  NoDup (map line_color (traces figure_logs)).
Proof.
  apply (plot_basic_logs_vocabulary_colours frame_logs "DEPTH" figure_logs).
  - discriminate.
  - reflexivity.
Defined.

Lemma plot_basic_logs_palette_wraps_witness :
  line_color (mkScatter [1] [0] "A1" "#1f77b4")
  = line_color (mkScatter [8] [0] "A8" "#1f77b4").
Proof.
  apply (plot_basic_logs_palette_wraps frame_wide "D" figure_wide 0);
    reflexivity.
Defined.

Lemma las_to_csv_one_column_per_curve_witness :
  exists back,
    las_to_csv sample_lasio_read (LasText las_dept_gr) = Some back /\
    map snd back = map data (curves las_dept_gr) /\
    columns back =
      map (fun m => if String.eqb m "index"
                    then depth_name_of (index_unit las_dept_gr) else m)
          (map mnemonic (curves las_dept_gr)).
Proof.
  apply (las_to_csv_one_column_per_curve sample_lasio_read
           (LasText las_dept_gr) las_dept_gr).
  - reflexivity.
  - discriminate.
  - repeat constructor; simpl; intuition discriminate.
Defined.

Lemma las_to_csv_ignores_index_unit_witness :
  las_to_csv sample_lasio_read (LasText las_dept_gr)
  = Some (map curve_column (curves las_dept_gr)).
Proof.
  apply (las_to_csv_ignores_index_unit sample_lasio_read
           (LasText las_dept_gr) las_dept_gr).
  - reflexivity.
  - discriminate.
  - repeat constructor; simpl; intuition discriminate.
  - simpl. intuition discriminate.
Defined.

Lemma las_to_csv_None_iff_witness :
  las_to_csv sample_lasio_read (LasText las_dept_gr) = None <->
  exists e, sample_lasio_read (LasText las_dept_gr) = Raise e.
Proof.
  apply (las_to_csv_None_iff sample_lasio_read (LasText las_dept_gr)).
  intros las H. injection H as <-. split.
  - discriminate.
  - repeat constructor; simpl; intuition discriminate.
Defined.

Lemma csv_to_las_None_iff_witness :
  csv_to_las sample_read_csv (CsvText frame_none) None = None <->
  (exists e, sample_read_csv (CsvText frame_none) = Raise e) \/
  (exists df, sample_read_csv (CsvText frame_none) = Ok df /\ columns df = []).
Proof.
  apply (csv_to_las_None_iff sample_read_csv (CsvText frame_none) None).
  exact I.
Defined.

Lemma scenario_keys_known : well_keys_known (Some scenario_well_info).
Proof.
  intros key value [H|[H|[]]]; injection H as <- _; simpl; tauto.
Defined.

Lemma csv_to_las_well_values_witness :
  exists las,
    csv_to_las sample_read_csv (CsvText frame_logs) (Some scenario_well_info)
    = Some las /\
    keys (well las) = keys default_well /\
    map h_unit (well las) = map h_unit default_well /\
    map h_descr (well las) = map h_descr default_well /\
    (forall key value, In (key, value) scenario_well_info ->
       value_of (well las) key = Some value) /\
    (forall key, ~ In key (map fst scenario_well_info) ->
       value_of (well las) key = value_of default_well key).
Proof.
  apply (csv_to_las_well_values sample_read_csv (CsvText frame_logs)
           scenario_well_info frame_logs).
  - reflexivity.
  - discriminate.
  - repeat constructor; simpl; intuition discriminate.
  - exact scenario_keys_known.
Defined.

Lemma csv_to_las_keeps_columns_witness :
  exists las depth_col depth,
    csv_to_las sample_read_csv (CsvText frame_logs) None = Some las /\
    get_depth_column frame_logs = Ok depth_col /\
    map curve_column (curves las) =
      (depth_col, depth)
        :: filter (fun col => negb (String.eqb (fst col) depth_col)) frame_logs /\
    Permutation (map curve_column (curves las)) frame_logs.
Proof.
  apply (csv_to_las_keeps_columns sample_read_csv (CsvText frame_logs) None
           frame_logs).
  - reflexivity.
  - discriminate.
  - exact nodup_frame_logs.
  - exact I.
Defined.

Lemma csv_to_las_curves_ignore_metadata_witness :
  exists las las',
    csv_to_las sample_read_csv (CsvText frame_logs) None = Some las /\
    csv_to_las sample_read_csv (CsvText frame_logs) (Some scenario_well_info)
    = Some las' /\
    curves las = curves las'.
Proof.
  eexists. eexists. split; [reflexivity|]. split; [reflexivity|].
  apply (csv_to_las_curves_ignore_metadata sample_read_csv (CsvText frame_logs)
           None (Some scenario_well_info)); reflexivity.
Defined.

Lemma main_call_csv_to_las_well_witness :
  exists las,
    main_call_csv_to_las sample_read_csv (CsvText frame_logs)
                      "W-1" "North" "" (2024, 5, 17)
    = Some las /\
    value_of (well las) "WELL" = Some (HText "W-1") /\
    value_of (well las) "FLD" = Some (HText "North") /\
    value_of (well las) "COMP" = Some (HText "") /\
    value_of (well las) "DATE" = Some (HDate 2024 5 17) /\
    (forall key, ~ In key ["WELL"; "FLD"; "COMP"; "DATE"] ->
       value_of (well las) key = value_of default_well key).
Proof.
  apply (main_call_csv_to_las_well sample_read_csv (CsvText frame_logs)
           "W-1" "North" "" (2024, 5, 17) frame_logs).
  - reflexivity.
  - discriminate.
Defined.

Lemma las_csv_las_units_reset_witness :
  exists las2 first others,
    csv_to_las sample_read_csv (CsvText frame_dept_gr) None = Some las2 /\
    Permutation (map curve_column (curves las2))
                (map curve_column (curves las_dept_gr)) /\
    curves las2 = first :: others /\
    unit first = "m" /\
    Forall (fun c => unit c = "") others.
Proof.
  apply (las_csv_las_units_reset sample_lasio_read sample_read_csv
           (LasText las_dept_gr) (CsvText frame_dept_gr) None
           las_dept_gr frame_dept_gr).
  - reflexivity.
  - discriminate.
  - repeat constructor; simpl; intuition discriminate.
  - simpl. intuition discriminate.
  - reflexivity.
  - reflexivity.
  - exact I.
Defined.

(* ------------------------------------------------------------------ *)
(** ** CSV to LAS and back to CSV *)



Lemma NoDup_map_injective {A B : Type} (f : A -> B) (l : list A) (a b : A) :
  NoDup (map f l) -> In a l -> In b l -> f a = f b -> a = b.
Proof.
  induction l as [|c l IH]; simpl; intros Hnd Ha Hb E; [destruct Ha|].
  inversion Hnd as [|? ? Hnot Hnd']; subst.
  destruct Ha as [->|Ha], Hb as [->|Hb].
  - reflexivity.
  - exfalso. apply Hnot. rewrite E. now apply in_map.
  - exfalso. apply Hnot. rewrite <- E. now apply in_map.
  - now apply IH.
Qed.

Section ReadBack.

Context {V Text : Type}.
Variable fmt : V -> Text.
Variable parse : Text -> V.



End ReadBack.

Section CsvLasCsv.

Context {V Text File : Type}.
Variable fmt : V -> Text.
Variable parse : Text -> V.
Variable lasio_read : File -> result (LASFile V).
Variable pd_read_csv : File -> result (DataFrame V).
Implicit Types (df : DataFrame V) (las : LASFile V).


End CsvLasCsv.


